(** * Patient Management System API (src/main.py)

    A shallow embedding of the FastAPI service of [src/main.py]: the
    pydantic models [Patient] and [PatientUpdate], the file helpers
    [load_data] / [save_data] and the route handlers, followed by the
    properties of the record store that the specification states.

    Modelling conventions.
    - A Python [float] is an IEEE-754 binary64 number: Rocq's primitive
      [float].  Exact values are read off with [Prim2SF].
    - [x ** 2] on floats goes through the [pow] of the C library, which is
      not the same to the last bit on every platform: it is a parameter,
      the class [Libm].
    - A Python [int] is unbounded: [Z].
    - [patients.json] holds a JSON object of JSON objects.  The outer
      object is an insertion-ordered Python [dict] (its order is
      observable through [/sort] and [/view]): an association list.  A
      record, the inner object, is only ever looked up, merged and
      rebuilt by key: a [gmap string value].
    - Exceptions are values of [error]; a handler is a function of the
      file contents returning an outcome and the new file contents.  The
      outcome is the value the handler returns or the exception it raises;
      how FastAPI encodes a returned value afterwards is not part of the
      handlers.  [create_patient] builds its [JSONResponse] itself, so
      that response is part of it. *)

From Stdlib Require Import ZArith QArith Qabs Qround Lqa Floats String List Permutation Sorted Lia.
From stdpp Require Import gmap strings list fin_maps sorting.

Set Warnings "-inexact-float".
Local Open Scope Z_scope.
Local Open Scope string_scope.

(** ** Python values read from and written to JSON *)

(** The scalars of JSON as Python sees them after [json.load].  The record
    schema has no nested field, so arrays and objects inside a record are
    not modelled. *)
Inductive value : Type :=
  | VNone
  | VBool (b : bool)
  | VInt (z : Z)
  | VFloat (f : float)
  | VStr (s : string).

(** A record: the fields of one patient, as a Python dict with string keys. *)
Abbreviation record := (gmap string value).

(** ** Exceptions *)

(** The kinds of a pydantic error entry.  [int_type] and [float_type] also
    stand for pydantic's parsing failures of the same field type. *)
Inductive error_kind : Type :=
  | missing
  | string_type
  | int_type
  | float_type
  | greater_than
  | less_than
  | literal_error.

Inductive error : Type :=
  | HTTPException (status_code : Z) (detail : string)
  | ValidationError (errors : list (string * error_kind))
  | ZeroDivisionError
  | OverflowError
  | TypeError
  | KeyError
  | ValueError.

Inductive result (A : Type) : Type :=
  | Ok (a : A)
  | Err (e : error).
Arguments Ok {A} a.
Arguments Err {A} e.

Definition result_bind {A B} (r : result A) (k : A -> result B) : result B :=
  match r with
  | Ok a => k a
  | Err e => Err e
  end.

Definition result_map {A B} (f : A -> B) (r : result A) : result B :=
  result_bind r (fun a => Ok (f a)).

(** The failures the specification names. *)
Definition NotFound : error := HTTPException 404 "Patient not found".
Definition AlreadyExists : error := HTTPException 400 "Patient already exists".

Definition is_ValidationError (e : error) : Prop :=
  exists errors, e = ValidationError errors.

(** ** Floating point: exact values, comparison, [**], [/] and [round] *)

(** The C library of the platform: [pow_2 x] is what its [pow(x, 2.0)]
    returns for a finite [x > 0] other than 1.  CPython computes [x ** 2] on
    floats through this function, whose last bit differs from one library to
    the other; it is a parameter.  The library reports a range error only
    through a zero or an infinite result. *)
Class Libm : Type := {
  pow_2 : float -> float
}.

Module PyFloat.

(** The number [m * 2^e]. *)
Definition dyadic (m e : Z) : Q :=
  match e with
  | Z0 => inject_Z m
  | Zpos p => inject_Z (m * 2 ^ Zpos p)
  | Zneg p => Qmake m (2 ^ p)%positive
  end.

(** A number of Python with its exact value: what the comparison
    operators of [int], [bool] and [float] compare. *)
Inductive xnum : Type :=
  | XNaN
  | XNegInf
  | XFin (q : Q)
  | XPosInf.

Definition exact (x : float) : xnum :=
  match Prim2SF x with
  | S754_zero _ => XFin 0
  | S754_infinity s => if s then XNegInf else XPosInf
  | S754_nan => XNaN
  | S754_finite s m e => XFin (dyadic (cond_Zopp s (Zpos m)) e)
  end.

Definition Qltb (p q : Q) : bool :=
  match Qcompare p q with Lt => true | _ => false end.

Definition Qleb (p q : Q) : bool :=
  match Qcompare p q with Gt => false | _ => true end.

(** [a < b]: every comparison with a NaN is false. *)
Definition xlt (a b : xnum) : bool :=
  match a, b with
  | XNaN, _ | _, XNaN => false
  | _, XNegInf => false
  | XNegInf, _ => true
  | XPosInf, _ => false
  | XFin _, XPosInf => true
  | XFin p, XFin q => Qltb p q
  end.

(** [a <= b] *)
Definition xle (a b : xnum) : bool :=
  match a, b with
  | XNaN, _ | _, XNaN => false
  | XNegInf, _ => true
  | _, XPosInf => true
  | _, XNegInf => false
  | XPosInf, _ => false
  | XFin p, XFin q => Qleb p q
  end.

Definition lt (x y : float) : bool := xlt (exact x) (exact y).
Definition le (x y : float) : bool := xle (exact x) (exact y).

(** [x ** 2] for a float [x] ([float_pow] of CPython): a NaN is returned
    as it is, an infinity gives plus infinity, a zero gives zero; for a
    negative base the sign is dropped, the exponent being even; base 1 gives
    1; every other base goes to the [pow] of the platform, whose infinite
    result raises [OverflowError] and whose underflow to zero is
    returned. *)
Definition pow2 `{Libm} (x : float) : result float :=
  match exact x with
  | XNaN => Ok x
  | XNegInf | XPosInf => Ok infinity
  | XFin q =>
      if Qeq_bool q 0 then Ok 0%float
      else
        let a := if Qltb q 0 then PrimFloat.opp x else x in
        if PrimFloat.eqb a 1%float then Ok 1%float
        else
          let r := pow_2 a in
          if is_infinity r then Err OverflowError else Ok r
  end.

(** [x / y] on floats: a zero divisor raises. *)
Definition truediv (x y : float) : result float :=
  if is_zero y then Err ZeroDivisionError else Ok (PrimFloat.div x y).

(** The integer nearest to [q], a tie going to the even one. *)
Definition round_half_even (q : Q) : Z :=
  let n := Qfloor q in
  match Qcompare (q - inject_Z n) (1 # 2) with
  | Lt => n
  | Gt => n + 1
  | Eq => if Z.even n then n else n + 1
  end.

(** The double nearest to [n / 100] (ties to even), with the sign [s] when
    [n] is [0]: what [strtod] returns for the decimal string of [n]
    hundredths. *)
Definition of_hundredths (s : bool) (n : Z) : float :=
  match n with
  | Z0 => SF2Prim (S754_zero s)
  | Zpos p => SF2Prim (SFdiv prec emax (S754_finite false p 0) (S754_finite false 100 0))
  | Zneg p => SF2Prim (SFdiv prec emax (S754_finite true p 0) (S754_finite false 100 0))
  end.

(** [round(x, 2)] ([float.__round__] of CPython with [ndigits = 2]): NaN and
    the infinities round to themselves; a finite [x] is converted to the
    decimal with two digits after the point that is nearest to its exact
    value (half to even), and that decimal back to the nearest double. *)
Definition round2 (x : float) : float :=
  match exact x with
  | XFin q => of_hundredths (get_sign x) (round_half_even (100 * q))
  | _ => x
  end.

End PyFloat.

(** ** pydantic: field validation

    A field validator returns the validated value or the kind of the error
    entry pydantic reports for the field. *)

(** Lax mode.  Outside strict mode pydantic also accepts, for an [int] or a
    [float] field, some inputs of another type (a numeric string, a float
    without fractional part, an int for a float).  Which ones is the
    library's business, not the repository's: the two coercions are
    parameters. *)
Class LaxMode : Type := {
  lax_int : value -> option Z;
  lax_float : value -> option float
}.

Module Field.

Definition t (A : Type) : Type := (error_kind + A)%type.

Definition bind {A B} (r : t A) (k : A -> t B) : t B :=
  match r with
  | inl e => inl e
  | inr a => k a
  end.

(** [str] *)
Definition str (v : value) : t string :=
  match v with
  | VStr s => inr s
  | _ => inl string_type
  end.

(** [int] *)
Definition int `{LaxMode} (v : value) : t Z :=
  match v with
  | VInt z => inr z
  | VNone => inl int_type
  | _ => match lax_int v with
         | Some z => inr z
         | None => inl int_type
         end
  end.

(** [float] *)
Definition float `{LaxMode} (v : value) : t PrimFloat.float :=
  match v with
  | VFloat f => inr f
  | VNone => inl float_type
  | _ => match lax_float v with
         | Some f => inr f
         | None => inl float_type
         end
  end.

(** [Literal[...]] of strings *)
Definition literal (choices : list string) (v : value) : t string :=
  match v with
  | VStr s => if bool_decide (s ∈ choices) then inr s else inl literal_error
  | _ => inl literal_error
  end.

(** [Field(gt=bound)] and [Field(lt=bound)] on an [int] *)
Definition gt (bound z : Z) : t Z :=
  if (bound <? z)%Z then inr z else inl greater_than.

Definition lt (bound z : Z) : t Z :=
  if (z <? bound)%Z then inr z else inl less_than.

(** [Field(gt=0)] on a [float] *)
Definition gt0 (f : PrimFloat.float) : t PrimFloat.float :=
  if PyFloat.lt 0%float f then inr f else inl greater_than.

(** [Field(...)]: the field is required *)
Definition required {A} (validator : value -> t A) (input : option value) : t A :=
  match input with
  | None => inl missing
  | Some v => validator v
  end.

(** [Optional[T] = None]: an absent field and an explicit [None] both
    give [None] *)
Definition optional {A} (validator : value -> t A) (input : option value) : t (option A) :=
  match input with
  | None | Some VNone => inr None
  | Some v => bind (validator v) (fun a => inr (Some a))
  end.

(** The error entry of a field, if any. *)
Definition errors {A} (loc : string) (r : t A) : list (string * error_kind) :=
  match r with
  | inl e => [(loc, e)]
  | inr _ => []
  end.

End Field.

Definition genders : list string := ["male"; "female"; "others"].

(** ** class Patient(BaseModel) *)

Module Patient.

Record t : Type := {
  id : string;
  name : string;
  city : string;
  age : Z;
  gender : string;
  height : float;
  weight : float
}.

Section Validate.
Context `{LaxMode}.

Definition validate_id (kwargs : record) : Field.t string :=
  Field.required Field.str (kwargs !! "id").
Definition validate_name (kwargs : record) : Field.t string :=
  Field.required Field.str (kwargs !! "name").
Definition validate_city (kwargs : record) : Field.t string :=
  Field.required Field.str (kwargs !! "city").
Definition validate_age (kwargs : record) : Field.t Z :=
  Field.required
    (fun v => Field.bind (Field.int v) (fun z => Field.bind (Field.gt 0 z) (Field.lt 120)))
    (kwargs !! "age").
Definition validate_gender (kwargs : record) : Field.t string :=
  Field.required (Field.literal genders) (kwargs !! "gender").
Definition validate_height (kwargs : record) : Field.t float :=
  Field.required (fun v => Field.bind (Field.float v) Field.gt0) (kwargs !! "height").
Definition validate_weight (kwargs : record) : Field.t float :=
  Field.required (fun v => Field.bind (Field.float v) Field.gt0) (kwargs !! "weight").

(** The error entries of the fields that fail, in the order of declaration. *)
Definition errors (kwargs : record) : list (string * error_kind) :=
  Field.errors "id" (validate_id kwargs) ++
  Field.errors "name" (validate_name kwargs) ++
  Field.errors "city" (validate_city kwargs) ++
  Field.errors "age" (validate_age kwargs) ++
  Field.errors "gender" (validate_gender kwargs) ++
  Field.errors "height" (validate_height kwargs) ++
  Field.errors "weight" (validate_weight kwargs).

(** The constructor of [Patient] on keyword arguments: every field is
    validated, keys that are not fields are ignored, and a failure reports
    the entries of all the fields that failed. *)
Definition validate (kwargs : record) : result t :=
  match validate_id kwargs, validate_name kwargs, validate_city kwargs,
        validate_age kwargs, validate_gender kwargs,
        validate_height kwargs, validate_weight kwargs with
  | inr i, inr n, inr c, inr a, inr g, inr h, inr w =>
      Ok {| id := i; name := n; city := c; age := a; gender := g;
            height := h; weight := w |}
  | _, _, _, _, _, _, _ => Err (ValidationError (errors kwargs))
  end.
End Validate.

(** [bmi]: [round(self.weight / (self.height ** 2), 2)] *)
Definition bmi `{Libm} (self : t) : result float :=
  result_bind (PyFloat.pow2 (height self)) (fun d =>
  result_bind (PyFloat.truediv (weight self) d) (fun q =>
  Ok (PyFloat.round2 q))).

(** [x < z] for a float [x] and an int literal [z] *)
Definition lt_int (x : float) (z : Z) : bool :=
  PyFloat.xlt (PyFloat.exact x) (PyFloat.XFin (inject_Z z)).

(** [verdict]: each test reads the property [bmi] again *)
Definition verdict `{Libm} (self : t) : result string :=
  result_bind (bmi self) (fun b1 =>
  if PyFloat.lt b1 18.5%float then Ok "Underweight" else
  result_bind (bmi self) (fun b2 =>
  if lt_int b2 25 then Ok "Normal" else
  result_bind (bmi self) (fun b3 =>
  if lt_int b3 30 then Ok "Overweight" else Ok "Obese"))).

(** [model_dump(exclude=...)]: the fields in the order of declaration,
    then the computed fields, without the keys to exclude.  The source
    passes ['id'] in [create_patient] and 'id' in [update_patient]; both
    exclude the key id and no other. *)
Definition model_dump `{Libm} (exclude : list string) (self : t) : result record :=
  result_bind (bmi self) (fun b =>
  result_bind (verdict self) (fun v =>
  Ok (foldr delete
        ({[ "id" := VStr (id self);
            "name" := VStr (name self);
            "city" := VStr (city self);
            "age" := VInt (age self);
            "gender" := VStr (gender self);
            "height" := VFloat (height self);
            "weight" := VFloat (weight self);
            "bmi" := VFloat b;
            "verdict" := VStr v ]} : record)
        exclude))).

End Patient.

(** ** class PatientUpdate(BaseModel) *)

Module PatientUpdate.

(** Every attribute defaults to [None]; [model_fields_set] records which
    ones the caller supplied. *)
Record t : Type := {
  name : option string;
  city : option string;
  age : option Z;
  gender : option string;
  height : option float;
  weight : option float;
  model_fields_set : gset string
}.

Definition fields : list string :=
  ["name"; "city"; "age"; "gender"; "height"; "weight"].

Section Validate.
Context `{LaxMode}.

Definition validate_name (body : record) : Field.t (option string) :=
  Field.optional Field.str (body !! "name").
Definition validate_city (body : record) : Field.t (option string) :=
  Field.optional Field.str (body !! "city").
Definition validate_age (body : record) : Field.t (option Z) :=
  Field.optional (fun v => Field.bind (Field.int v) (Field.gt 0)) (body !! "age").
Definition validate_gender (body : record) : Field.t (option string) :=
  Field.optional (Field.literal genders) (body !! "gender").
Definition validate_height (body : record) : Field.t (option float) :=
  Field.optional (fun v => Field.bind (Field.float v) Field.gt0) (body !! "height").
Definition validate_weight (body : record) : Field.t (option float) :=
  Field.optional (fun v => Field.bind (Field.float v) Field.gt0) (body !! "weight").

(** The fields the body supplies. *)
Definition supplied (body : record) : gset string :=
  list_to_set (List.filter (fun f => bool_decide (is_Some (body !! f))) fields).

Definition errors (body : record) : list (string * error_kind) :=
  Field.errors "name" (validate_name body) ++
  Field.errors "city" (validate_city body) ++
  Field.errors "age" (validate_age body) ++
  Field.errors "gender" (validate_gender body) ++
  Field.errors "height" (validate_height body) ++
  Field.errors "weight" (validate_weight body).

(** The request body validated as a [PatientUpdate]; other keys of the
    body, an id among them, are ignored. *)
Definition validate (body : record) : result t :=
  match validate_name body, validate_city body, validate_age body,
        validate_gender body, validate_height body, validate_weight body with
  | inr n, inr c, inr a, inr g, inr h, inr w =>
      Ok {| name := n; city := c; age := a; gender := g; height := h;
            weight := w;
            model_fields_set := supplied body |}
  | _, _, _, _, _, _ => Err (ValidationError (errors body))
  end.
End Validate.

Definition dump {A} (inj : A -> value) (o : option A) : value :=
  match o with
  | Some a => inj a
  | None => VNone
  end.

(** One entry of [model_dump(exclude_unset=True)]: the field is present
    exactly when it was supplied. *)
Definition entry (self : t) (field : string) (v : value) (d : record) : record :=
  if bool_decide (field ∈ model_fields_set self) then <[field := v]> d else d.

(** [model_dump(exclude_unset=True)] *)
Definition model_dump_exclude_unset (self : t) : record :=
  entry self "name" (dump VStr (name self))
    (entry self "city" (dump VStr (city self))
      (entry self "age" (dump VInt (age self))
        (entry self "gender" (dump VStr (gender self))
          (entry self "height" (dump VFloat (height self))
            (entry self "weight" (dump VFloat (weight self)) ∅))))).

End PatientUpdate.

(** ** The record store: [patients.json] *)

(** The file holds an insertion-ordered dict from patient id to record,
    whose keys are distinct. *)
Definition store : Type := list (string * record).

Module Dict.

(** [d.get(k)] *)
Fixpoint get (k : string) (d : store) : option record :=
  match d with
  | [] => None
  | (k', v) :: d' => if String.eqb k' k then Some v else get k d'
  end.

(** [k in d] *)
Definition contains (k : string) (d : store) : bool :=
  match get k d with
  | Some _ => true
  | None => false
  end.

(** [d[k]] *)
Definition getitem (k : string) (d : store) : result record :=
  match get k d with
  | Some v => Ok v
  | None => Err KeyError
  end.

(** [d[k] = v]: an existing key keeps its place, a new key goes last *)
Fixpoint set (k : string) (v : record) (d : store) : store :=
  match d with
  | [] => [(k, v)]
  | (k', v') :: d' =>
      if String.eqb k' k then (k, v) :: d' else (k', v') :: set k v d'
  end.

(** The dict without its entry under [k]; the keys of a dict being
    distinct, that is every entry of the list under [k]. *)
Fixpoint remove (k : string) (d : store) : store :=
  match d with
  | [] => []
  | (k', v') :: d' =>
      if String.eqb k' k then remove k d' else (k', v') :: remove k d'
  end.

(** [del d[k]] *)
Definition delitem (k : string) (d : store) : result store :=
  if contains k d then Ok (remove k d) else Err KeyError.

(** [d.values()] and [d.keys()], in insertion order *)
Definition values (d : store) : list record := List.map snd d.
Definition keys (d : store) : list string := List.map fst d.

End Dict.

(** ** Handlers: state is the contents of the file *)

Definition M (A : Type) : Type := store -> result A * store.

Definition ret {A} (a : A) : M A := fun file => (Ok a, file).

Definition raise {A} (e : error) : M A := fun file => (Err e, file).

Definition bind {A B} (m : M A) (k : A -> M B) : M B :=
  fun file =>
    match m file with
    | (Ok a, file') => k a file'
    | (Err e, file') => (Err e, file')
    end.

(** An exception raised by a pure computation propagates. *)
Definition lift {A} (r : result A) : M A :=
  match r with
  | Ok a => ret a
  | Err e => raise e
  end.

Declare Scope handler_scope.
Delimit Scope handler_scope with handler.
Notation "x <- m ;; k" := (bind m (fun x => k))
  (at level 100, m at next level, right associativity) : handler_scope.
Notation "m ;;; k" := (bind m (fun _ => k))
  (at level 100, right associativity) : handler_scope.
Local Open Scope handler_scope.

(** [load_data()]: a fresh dict with the contents of the file *)
Definition load_data : M store := fun file => (Ok file, file).

(** [save_data(data)]: the file is rewritten as a whole *)
Definition save_data (data : store) : M unit := fun _ => (Ok tt, data).

(** ** Sorting: [sorted(iterable, key=..., reverse=...)] *)

Module Sorting.

(** The value a number is compared by; [None] for what is not a number. *)
Definition number (v : value) : option PyFloat.xnum :=
  match v with
  | VBool b => Some (PyFloat.XFin (inject_Z (Z.b2z b)))
  | VInt z => Some (PyFloat.XFin (inject_Z z))
  | VFloat f => Some (PyFloat.exact f)
  | VNone | VStr _ => None
  end.

(** [a < b]: numbers compare by value, strings by code points, anything
    else raises [TypeError]. *)
Definition py_lt (a b : value) : result bool :=
  match number a, number b with
  | Some x, Some y => Ok (PyFloat.xlt x y)
  | _, _ =>
      match a, b with
      | VStr s, VStr t => Ok (String.ltb s t)
      | _, _ => Err TypeError
      end
  end.

Section Keyed.
Context {A : Type} (key : A -> value).

(** [x] goes in front of the first element whose key is greater than its
    own, hence behind the elements with an equal key. *)
Fixpoint insert (x : A) (l : list A) : result (list A) :=
  match l with
  | [] => Ok [x]
  | y :: l' =>
      result_bind (py_lt (key x) (key y)) (fun b =>
      if b then Ok (x :: y :: l')
      else result_map (cons y) (insert x l'))
  end.

(** [list.sort]: a stable sort that only uses [<].  It is modelled by
    insertion from left to right, which returns the list CPython returns
    whenever [<] orders the keys (no NaN among them), and raises
    [TypeError], as CPython does, when two or more keys are of types
    that do not compare. *)
Definition sort (l : list A) : result (list A) :=
  fold_left (fun acc x => result_bind acc (insert x)) l (Ok []).

(** [reverse=True] reverses the list before and after the sort, so that
    elements with equal keys keep their order. *)
Definition sorted (reverse : bool) (l : list A) : result (list A) :=
  if reverse then result_map (@List.rev A) (sort (List.rev l)) else sort l.
End Keyed.

End Sorting.

(** ** Routes *)

Record JSONResponse : Type := {
  status_code : Z;
  content : record
}.

(** A value [json.dumps] renders with [allow_nan=False]: anything but an
    infinite float or a NaN. *)
Definition json_compliant (v : value) : bool :=
  match v with
  | VFloat f => is_finite f
  | _ => true
  end.

(** [JSONResponse(status_code=..., content=...)]: the body is rendered when
    the response is constructed, and a content that holds an infinite float
    or a NaN raises [ValueError]. *)
Definition JSONResponse_init (status_code : Z) (content : record) : result JSONResponse :=
  if bool_decide (map_Forall (fun _ v => json_compliant v = true) content)
  then Ok {| status_code := status_code; content := content |}
  else Err ValueError.

(** [GET /view] *)
Definition view : M store := load_data.

(** [GET /patient/{patient_id}] *)
Definition view_patient (patient_id : string) : M record :=
  data <- load_data ;;
  if Dict.contains patient_id data then
    lift (Dict.getitem patient_id data)
  else raise (HTTPException 404 "Patient not found").

Definition valid_fields : list string := ["height"; "weight"; "bmi"].

(** [GET /sort]: the key of a record is [x.get(sort_by, 0)] *)
Definition sort_key (sort_by : string) (x : record) : value :=
  default (VInt 0) (x !! sort_by).

Definition sort_patients (sort_by order : string) : M (list record) :=
  if negb (bool_decide (sort_by ∈ valid_fields)) then
    raise (HTTPException 400 "Invalid field. Choose from ['height', 'weight', 'bmi']")
  else if negb (bool_decide (order ∈ ["asc"; "desc"])) then
    raise (HTTPException 400 "Order must be asc or desc")
  else
    data <- load_data ;;
    let reverse := String.eqb order "desc" in
    lift (Sorting.sorted (sort_key sort_by) reverse (Dict.values data)).

(** [POST /create]; the body has been validated as a [Patient] *)
Definition create_patient `{Libm} (patient : Patient.t) : M JSONResponse :=
  data <- load_data ;;
  if Dict.contains (Patient.id patient) data then
    raise (HTTPException 400 "Patient already exists")
  else
    d <- lift (Patient.model_dump ["id"] patient) ;;
    let data := Dict.set (Patient.id patient) d data in
    save_data data ;;;
    c <- lift (Patient.model_dump [] patient) ;;
    lift (JSONResponse_init 201 c).

(** [merged = {**existing, **updates}] followed by
    [merged['id'] = patient_id] *)
Definition merge (existing updates : record) (patient_id : string) : record :=
  <["id" := VStr patient_id]> (updates ∪ existing).

(** [PUT /edit/{patient_id}]; the body has been validated as a
    [PatientUpdate].  The handler returns the patient; turning it into a
    response is the framework's work, after the handler. *)
Definition update_patient `{LaxMode} `{Libm} (patient_id : string)
    (patient_update : PatientUpdate.t) : M Patient.t :=
  data <- load_data ;;
  if negb (Dict.contains patient_id data) then
    raise (HTTPException 404 "Patient not found")
  else
    existing <- lift (Dict.getitem patient_id data) ;;
    let updates := PatientUpdate.model_dump_exclude_unset patient_update in
    let merged := merge existing updates patient_id in
    patient_obj <- lift (Patient.validate merged) ;;
    d <- lift (Patient.model_dump ["id"] patient_obj) ;;
    let data := Dict.set patient_id d data in
    save_data data ;;;
    ret patient_obj.

(** [DELETE /delete/{patient_id}] *)
Definition delete_patient (patient_id : string) : M record :=
  data <- load_data ;;
  if negb (Dict.contains patient_id data) then
    raise (HTTPException 404 "Patient not found")
  else
    data <- lift (Dict.delitem patient_id data) ;;
    save_data data ;;;
    ret ({[ "message" := VStr "patient deleted" ]} : record).

(** The two routes with a body, as FastAPI runs them: the body is validated
    first and the handler is called on the model. *)
Definition post_create `{LaxMode} `{Libm} (body : record) : M JSONResponse :=
  patient <- lift (Patient.validate body) ;;
  create_patient patient.

Definition put_edit `{LaxMode} `{Libm} (patient_id : string) (body : record) :
    M Patient.t :=
  patient_update <- lift (PatientUpdate.validate body) ;;
  update_patient patient_id patient_update.

(** ** Sample data *)

(** No lax coercion at all: inputs must have the type of their field. *)
Definition exact_types : LaxMode :=
  {| lax_int := fun _ => None; lax_float := fun _ => None |}.

(** A C library whose [pow] rounds every square correctly. *)
Definition correctly_rounded : Libm :=
  {| pow_2 := fun x => PrimFloat.mul x x |}.

Definition ananya : Patient.t :=
  {| Patient.id := "P001"; Patient.name := "Ananya"; Patient.city := "Guwahati";
     Patient.age := 28; Patient.gender := "female";
     Patient.height := 1.75%float; Patient.weight := 70%float |}.

Definition ravi : Patient.t :=
  {| Patient.id := "P002"; Patient.name := "Ravi"; Patient.city := "Mumbai";
     Patient.age := 35; Patient.gender := "male";
     Patient.height := 1.6%float; Patient.weight := 90%float |}.

(** What [create_patient] stores for [ananya] and for [ravi]. *)
Definition ananya_stored : record :=
  {[ "name" := VStr "Ananya"; "city" := VStr "Guwahati"; "age" := VInt 28;
     "gender" := VStr "female"; "height" := VFloat 1.75%float;
     "weight" := VFloat 70%float; "bmi" := VFloat 22.86%float;
     "verdict" := VStr "Normal" ]}.

Definition ravi_stored : record :=
  {[ "name" := VStr "Ravi"; "city" := VStr "Mumbai"; "age" := VInt 35;
     "gender" := VStr "male"; "height" := VFloat 1.6%float;
     "weight" := VFloat 90%float; "bmi" := VFloat 35.16%float;
     "verdict" := VStr "Obese" ]}.

Definition one_patient : store := [("P001", ananya_stored)].
Definition two_patients : store := [("P001", ananya_stored); ("P002", ravi_stored)].


Definition tiny_patient : Patient.t :=
  {| Patient.id := "P003"; Patient.name := "Tiny"; Patient.city := "Pune";
     Patient.age := 40; Patient.gender := "others";
     Patient.height := 1e-200%float; Patient.weight := 70%float |}.

Definition tall_patient : Patient.t :=
  {| Patient.id := "P004"; Patient.name := "Tall"; Patient.city := "Pune";
     Patient.age := 40; Patient.gender := "others";
     Patient.height := 1e200%float; Patient.weight := 70%float |}.

(** ** Notions the statements use *)


(** A field validator accepts its input. *)
Definition accepted {A} (r : Field.t A) : Prop := exists a, r = inr a.

(** The fields of [Patient], in the order of declaration. *)
Definition patient_fields : list string :=
  ["id"; "name"; "city"; "age"; "gender"; "height"; "weight"].

(** The constraint of the data model on the input of a field of [Patient]:
    age is an integer with 0 < age < 120, gender one of the three literals,
    height and weight floats greater than 0, and id, name and city
    strings. *)
Definition constraint `{LaxMode} (field : string) (input : option value) : Prop :=
  if String.eqb field "age" then
    exists v z, input = Some v /\ Field.int v = inr z /\ 0 < z < 120
  else if String.eqb field "gender" then
    exists s, input = Some (VStr s) /\ s ∈ genders
  else if String.eqb field "height" || String.eqb field "weight" then
    exists v f, input = Some v /\ Field.float v = inr f /\ PyFloat.lt 0%float f = true
  else
    exists s, input = Some (VStr s).

Definition satisfied `{LaxMode} (kwargs : record) (field : string) : Prop :=
  constraint field (kwargs !! field).

(** A payload with an empty name and an empty city. *)
Definition anonymous : record :=
  {[ "id" := VStr "P005"; "name" := VStr ""; "city" := VStr "";
     "age" := VInt 28; "gender" := VStr "female";
     "height" := VFloat 1.75%float; "weight" := VFloat 70%float ]}.

(** A payload with three violations: no city, age 130 and an unknown gender. *)
Definition three_wrong : record :=
  {[ "id" := VStr "P006"; "name" := VStr "Kiran";
     "age" := VInt 130; "gender" := VStr "unknown";
     "height" := VFloat 1.75%float; "weight" := VFloat 70%float ]}.

(** What [model_dump] without the id yields for a patient whose bmi is [b]
    and whose verdict is [v]: the six fields and the two computed fields. *)
Definition stored (p : Patient.t) (b : float) (v : string) : record :=
  {[ "name" := VStr (Patient.name p);
     "city" := VStr (Patient.city p);
     "age" := VInt (Patient.age p);
     "gender" := VStr (Patient.gender p);
     "height" := VFloat (Patient.height p);
     "weight" := VFloat (Patient.weight p);
     "bmi" := VFloat b;
     "verdict" := VStr v ]}.

(** The file holds, under [key], the dump of [p] with the bmi and the
    verdict of [p]. *)
Definition persisted `{Libm} (p : Patient.t) (key : string) (file : store) : Prop :=
  exists (b : float) (v : string),
    Patient.bmi p = Ok b /\ Patient.verdict p = Ok v /\
    Dict.get key file = Some (stored p b v).

(** How an update treats one field: when the body does not supply it the
    new value is the old one; when the body supplies [v] the new value is
    [v] as the validator of the field reads it. *)
Definition overwritten {A} (supplied : option value) (validator : value -> Field.t A)
    (old new : A) : Prop :=
  match supplied with
  | None => new = old
  | Some v => validator v = inr new
  end.

(** The entry of a field in the dump of the payload. *)
Definition payload_entry (u : PatientUpdate.t) (f : string) (v : value) : option value :=
  if bool_decide (f ∈ PatientUpdate.model_fields_set u) then Some v else None.

(** A sort key that is a number other than NaN. *)
Definition ordered_key (v : value) : Prop :=
  exists x, Sorting.number v = Some x /\ x <> PyFloat.XNaN.

(** [a <= b] on numbers. *)
Definition key_le (a b : value) : Prop :=
  exists x y,
    Sorting.number a = Some x /\ Sorting.number b = Some y /\ PyFloat.xle x y = true.

(** Two records are in ascending, in descending, order of the value they
    hold under [sort_by] (0 for a record without that key). *)
Definition ascending (sort_by : string) (a b : record) : Prop :=
  key_le (sort_key sort_by a) (sort_key sort_by b).

Definition descending (sort_by : string) (a b : record) : Prop :=
  key_le (sort_key sort_by b) (sort_key sort_by a).

(** The bmi of a stored record computed from the height and the weight it
    holds: the sort key for bmi as the specification words it. *)
Definition bmi_on_the_fly `{LaxMode} `{Libm} (x : record) : result float :=
  result_bind (Patient.validate (<["id" := VStr ""]> x)) Patient.bmi.

(** Two records as the data model of the specification stores them: the
    six fields, no bmi and no verdict. *)
Definition ananya_six : record :=
  {[ "name" := VStr "Ananya"; "city" := VStr "Guwahati"; "age" := VInt 28;
     "gender" := VStr "female"; "height" := VFloat 1.75%float;
     "weight" := VFloat 70%float ]}.

Definition ravi_six : record :=
  {[ "name" := VStr "Ravi"; "city" := VStr "Mumbai"; "age" := VInt 35;
     "gender" := VStr "male"; "height" := VFloat 1.6%float;
     "weight" := VFloat 90%float ]}.

Definition six_fields_only : store := [("P002", ravi_six); ("P001", ananya_six)].

(** The update of the city and the weight of P001. *)
Definition move_and_gain : record :=
  {[ "city" := VStr "Pune"; "weight" := VFloat 90%float; "id" := VStr "P999" ]}.

Definition move_and_gain_model : PatientUpdate.t :=
  {| PatientUpdate.name := None; PatientUpdate.city := Some "Pune";
     PatientUpdate.age := None; PatientUpdate.gender := None;
     PatientUpdate.height := None; PatientUpdate.weight := Some 90%float;
     PatientUpdate.model_fields_set := PatientUpdate.supplied move_and_gain |}.

Definition ananya_moved : Patient.t :=
  {| Patient.id := "P001"; Patient.name := "Ananya"; Patient.city := "Pune";
     Patient.age := 28; Patient.gender := "female";
     Patient.height := 1.75%float; Patient.weight := 90%float |}.

Definition ananya_moved_stored : record :=
  {[ "name" := VStr "Ananya"; "city" := VStr "Pune"; "age" := VInt 28;
     "gender" := VStr "female"; "height" := VFloat 1.75%float;
     "weight" := VFloat 90%float; "bmi" := VFloat 29.39%float;
     "verdict" := VStr "Overweight" ]}.

(** ** Notions of the further properties *)

(** The constraints a [Patient] object meets once it is constructed. *)
Definition valid_patient (p : Patient.t) : Prop :=
  0 < Patient.age p < 120 /\
  Patient.gender p ∈ genders /\
  PyFloat.lt 0%float (Patient.height p) = true /\
  PyFloat.lt 0%float (Patient.weight p) = true.

(** A record as [create_patient] and [update_patient] write it under
    [key]: the dump, without the id, of a patient with that id. *)
Definition written `{Libm} (key : string) (r : record) : Prop :=
  exists (p : Patient.t) (b : float) (v : string),
    valid_patient p /\ Patient.id p = key /\
    Patient.bmi p = Ok b /\ Patient.verdict p = Ok v /\
    r = stored p b v.

(** Every record of the file is a written one. *)
Definition well_formed `{Libm} (file : store) : Prop :=
  forall key r, Dict.get key file = Some r -> written key r.

(** Two keys that are numbers neither of which is below the other. *)
Definition tie (k v : value) : bool :=
  match Sorting.number k, Sorting.number v with
  | Some x, Some y => PyFloat.xle x y && PyFloat.xle y x
  | _, _ => false
  end.

(** The records of a list whose key under [sort_by] ties with [k], in the
    order of the list. *)
Definition tied (sort_by : string) (k : value) (l : list record) : list record :=
  List.filter (fun x => tie k (sort_key sort_by x)) l.

(** The body without any field. *)
Definition empty_update : PatientUpdate.t :=
  {| PatientUpdate.name := None; PatientUpdate.city := None;
     PatientUpdate.age := None; PatientUpdate.gender := None;
     PatientUpdate.height := None; PatientUpdate.weight := None;
     PatientUpdate.model_fields_set := PatientUpdate.supplied ∅ |}.

(** A third patient, whose bmi is that of [ananya]. *)
Definition meera : Patient.t :=
  {| Patient.id := "P007"; Patient.name := "Meera"; Patient.city := "Kochi";
     Patient.age := 51; Patient.gender := "female";
     Patient.height := 1.75%float; Patient.weight := 70%float |}.

Definition meera_stored : record :=
  {[ "name" := VStr "Meera"; "city" := VStr "Kochi"; "age" := VInt 51;
     "gender" := VStr "female"; "height" := VFloat 1.75%float;
     "weight" := VFloat 70%float; "bmi" := VFloat 22.86%float;
     "verdict" := VStr "Normal" ]}.

Definition three_patients : store :=
  [("P001", ananya_stored); ("P002", ravi_stored); ("P007", meera_stored)].

(** A patient whose bmi is not a number: infinite height and weight. *)
Definition boundless : Patient.t :=
  {| Patient.id := "P008"; Patient.name := "Boundless"; Patient.city := "Pune";
     Patient.age := 40; Patient.gender := "others";
     Patient.height := infinity; Patient.weight := infinity |}.

(** A store with one record, whose height is not a number. *)
Definition tall_only : store := [("P009", {[ "height" := VStr "tall" ]})].

(** A patient whose height and weight are finite and whose bmi is not:
    the quotient overflows. *)
Definition heavy : Patient.t :=
  {| Patient.id := "P010"; Patient.name := "Heavy"; Patient.city := "Pune";
     Patient.age := 40; Patient.gender := "others";
     Patient.height := 1e-5%float; Patient.weight := 1e308%float |}.

(** An update of the height of P001 to a height whose square underflows. *)
Definition shrink : record := {[ "height" := VFloat 1e-200%float ]}.

Definition shrink_model : PatientUpdate.t :=
  {| PatientUpdate.name := None; PatientUpdate.city := None;
     PatientUpdate.age := None; PatientUpdate.gender := None;
     PatientUpdate.height := Some 1e-200%float; PatientUpdate.weight := None;
     PatientUpdate.model_fields_set := PatientUpdate.supplied shrink |}.

Definition ananya_shrunk : Patient.t :=
  {| Patient.id := "P001"; Patient.name := "Ananya"; Patient.city := "Guwahati";
     Patient.age := 28; Patient.gender := "female";
     Patient.height := 1e-200%float; Patient.weight := 70%float |}.

(** * Properties

    The statements are about any C library.  Where a concrete number is
    computed, it is computed with [correctly_rounded]. *)

#[local] Existing Instance correctly_rounded.

(** ** The dict operations *)

Lemma contains_get (k : string) (d : store) :
  Dict.contains k d = true <-> is_Some (Dict.get k d).
Proof.
  unfold Dict.contains. destruct (Dict.get k d); split; intros Hk; eauto.
  - discriminate.
  - destruct Hk; discriminate.
Qed.

Lemma contains_false (k : string) (d : store) :
  Dict.contains k d = false <-> Dict.get k d = None.
Proof.
  unfold Dict.contains. destruct (Dict.get k d); split; intros Hk; congruence.
Qed.

Lemma get_set_eq (k : string) (v : record) (d : store) :
  Dict.get k (Dict.set k v d) = Some v.
Proof.
  induction d as [|[k' v'] d IH]; simpl.
  - now rewrite String.eqb_refl.
  - destruct (String.eqb k' k) eqn:E; simpl.
    + now rewrite String.eqb_refl.
    + now rewrite E.
Qed.

Lemma get_set_ne (k k' : string) (v : record) (d : store) :
  k <> k' -> Dict.get k' (Dict.set k v d) = Dict.get k' d.
Proof.
  intros Hne. induction d as [|[k0 v0] d IH]; simpl.
  - destruct (String.eqb k k') eqn:E; [apply String.eqb_eq in E; contradiction | reflexivity].
  - destruct (String.eqb k0 k) eqn:E; simpl.
    + apply String.eqb_eq in E. subst k0.
      destruct (String.eqb k k') eqn:E'; [apply String.eqb_eq in E'; contradiction | reflexivity].
    + now rewrite IH.
Qed.

Lemma keys_set_present (k : string) (v : record) (d : store) :
  Dict.contains k d = true -> Dict.keys (Dict.set k v d) = Dict.keys d.
Proof.
  unfold Dict.contains, Dict.keys.
  induction d as [|[k0 v0] d IH]; simpl; [discriminate|].
  destruct (String.eqb k0 k) eqn:E; simpl; intros Hk.
  - apply String.eqb_eq in E. now subst.
  - f_equal. now apply IH.
Qed.

Lemma get_remove_eq (k : string) (d : store) :
  Dict.get k (Dict.remove k d) = None.
Proof.
  induction d as [|[k' v'] d IH]; simpl; [reflexivity|].
  destruct (String.eqb k' k) eqn:E; simpl; [assumption|].
  now rewrite E.
Qed.

Lemma get_remove_ne (k k' : string) (d : store) :
  k <> k' -> Dict.get k' (Dict.remove k d) = Dict.get k' d.
Proof.
  intros Hne. induction d as [|[k0 v0] d IH]; simpl; [reflexivity|].
  destruct (String.eqb k0 k) eqn:E; simpl.
  - apply String.eqb_eq in E. subst k0.
    destruct (String.eqb k k') eqn:E'; [apply String.eqb_eq in E'; contradiction | assumption].
  - now rewrite IH.
Qed.

Lemma in_remove (k : string) (d : store) (kv : string * record) :
  In kv (Dict.remove k d) <-> In kv d /\ fst kv <> k.
Proof.
  induction d as [|[k0 v0] d IH]; simpl; [tauto|].
  destruct (String.eqb k0 k) eqn:E.
  - apply String.eqb_eq in E. subst k0. rewrite IH. split.
    + tauto.
    + intros [[<- | Hin] Hne]; [now simpl in Hne | tauto].
  - apply String.eqb_neq in E. simpl. rewrite IH. split.
    + intros [<- | [Hin Hne]]; simpl; tauto.
    + tauto.
Qed.

(** ** Floating point on concrete numbers *)

Example pow2_1_75 : PyFloat.pow2 1.75%float = Ok 3.0625%float.
Proof. reflexivity. Qed.

Example pow2_1_6 : PyFloat.pow2 1.6%float = Ok 2.5600000000000005%float.
Proof. reflexivity. Qed.

Example pow2_underflow : PyFloat.pow2 1e-200%float = Ok 0%float.
Proof. reflexivity. Qed.

Example pow2_overflow : PyFloat.pow2 1e200%float = Err OverflowError.
Proof. reflexivity. Qed.

Example round2_tie_down : PyFloat.round2 0.125%float = 0.12%float.
Proof. reflexivity. Qed.

Example round2_tie_up : PyFloat.round2 0.375%float = 0.38%float.
Proof. reflexivity. Qed.

Example round2_2_675 : PyFloat.round2 2.675%float = 2.67%float.
Proof. reflexivity. Qed.

Example round2_neg : PyFloat.round2 (-1.005)%float = (-1)%float.
Proof. reflexivity. Qed.

Example lt_agrees : PyFloat.lt 18.49%float 18.5%float = PrimFloat.ltb 18.49%float 18.5%float.
Proof. reflexivity. Qed.

(** ** The handlers on concrete stores *)

Example create_ananya :
  create_patient ananya [] =
    (Ok {| status_code := 201; content := <["id" := VStr "P001"]> ananya_stored |},
     one_patient).
Proof. reflexivity. Qed.

Example create_ravi :
  snd (create_patient ravi one_patient) = two_patients.
Proof. reflexivity. Qed.

Example view_ananya : view_patient "P001" two_patients = (Ok ananya_stored, two_patients).
Proof. reflexivity. Qed.

Example delete_ananya :
  snd (delete_patient "P001" two_patients) = [("P002", ravi_stored)].
Proof. reflexivity. Qed.

Example edit_weight :
  snd (@put_edit exact_types correctly_rounded "P001" {[ "weight" := VFloat 90%float ]} one_patient) =
    [("P001",
      {[ "name" := VStr "Ananya"; "city" := VStr "Guwahati"; "age" := VInt 28;
         "gender" := VStr "female"; "height" := VFloat 1.75%float;
         "weight" := VFloat 90%float; "bmi" := VFloat 29.39%float;
         "verdict" := VStr "Overweight" ]})].
Proof. reflexivity. Qed.

Example sort_desc :
  fst (sort_patients "bmi" "desc" two_patients) = Ok [ravi_stored; ananya_stored].
Proof. reflexivity. Qed.

Example sort_bad_field :
  fst (sort_patients "age" "asc" two_patients) =
    Err (HTTPException 400 "Invalid field. Choose from ['height', 'weight', 'bmi']").
Proof. reflexivity. Qed.

(** ** Reading one record (C3) *)

Lemma view_patient_present (file : store) (patient_id : string) (r : record) :
  Dict.get patient_id file = Some r ->
  view_patient patient_id file = (Ok r, file).
Proof.
  intros Hr. unfold view_patient, bind, load_data, Dict.contains, Dict.getitem.
  now rewrite Hr.
Qed.

Lemma view_patient_absent (file : store) (patient_id : string) :
  Dict.get patient_id file = None ->
  view_patient patient_id file = (Err NotFound, file).
Proof.
  intros Hr. unfold view_patient, bind, load_data, Dict.contains, Dict.getitem.
  now rewrite Hr.
Qed.

(** C3, as stated, fails: the record that [create_patient] stored for
    P001 is present, yet the response of [view_patient] has no id field;
    the key is not put back into the value. *)
Lemma view_patient_no_id :
  ~ (forall (file : store) (patient_id : string) (r : record),
       Dict.get patient_id file = Some r ->
       exists response : record,
         view_patient patient_id file = (Ok response, file) /\
         response !! "id" = Some (VStr patient_id)).
Proof.
  intros Hclaim.
  destruct (Hclaim one_patient "P001" ananya_stored eq_refl) as (response & Hview & Hid).
  rewrite (view_patient_present one_patient "P001" ananya_stored eq_refl) in Hview.
  injection Hview as <-. discriminate.
Qed.

(** C3 (amended): for an id present in the store, [view_patient] returns the
    value stored under that id as it is, so with an id field only if the
    stored value has one, and leaves the file alone; for an absent id it
    fails with NotFound. *)
Theorem view_patient_spec (file : store) (patient_id : string) :
  (forall r : record,
     Dict.get patient_id file = Some r ->
     view_patient patient_id file = (Ok r, file)) /\
  (Dict.get patient_id file = None ->
     view_patient patient_id file = (Err NotFound, file)).
Proof.
  split.
  - intros r. apply view_patient_present.
  - apply view_patient_absent.
Qed.

Lemma view_patient_spec_witness :
  view_patient "P002" two_patients = (Ok ravi_stored, two_patients) /\
  view_patient "P003" two_patients = (Err NotFound, two_patients).
Proof.
  destruct (view_patient_spec two_patients "P002") as [Hpresent _].
  destruct (view_patient_spec two_patients "P003") as [_ Habsent].
  split; [apply Hpresent | apply Habsent]; reflexivity.
Defined.

(** ** Creating under an id that exists (C8) *)

(** C8: when the id of the payload is already a key of the store,
    [create_patient] fails with AlreadyExists and the file, the record
    stored under that id included, is what it was. *)
Theorem create_existing_id `{Libm} (file : store) (patient : Patient.t) (r : record) :
  Dict.get (Patient.id patient) file = Some r ->
  exists file',
    create_patient patient file = (Err AlreadyExists, file') /\
    file' = file /\
    Dict.get (Patient.id patient) file' = Some r.
Proof.
  intros Hr. exists file.
  unfold create_patient, bind, load_data, Dict.contains.
  rewrite Hr. auto.
Qed.

Lemma create_existing_id_witness :
  exists file',
    create_patient ananya two_patients = (Err AlreadyExists, file') /\
    file' = two_patients /\
    Dict.get "P001" file' = Some ananya_stored.
Proof. apply (create_existing_id two_patients ananya ananya_stored). reflexivity. Defined.

(** ** Deleting (C10) *)

(** C10: when the id is present, [delete_patient] succeeds, the new file has
    no entry under that id, and every other entry is there as before: same
    value under every other id, nothing added. *)
Theorem delete_frame (file : store) (patient_id : string) :
  Dict.contains patient_id file = true ->
  exists (message : record) (file' : store),
    delete_patient patient_id file = (Ok message, file') /\
    Dict.get patient_id file' = None /\
    (forall other, other <> patient_id -> Dict.get other file' = Dict.get other file) /\
    (forall kv, In kv file' <-> In kv file /\ fst kv <> patient_id).
Proof.
  intros Hin.
  exists ({[ "message" := VStr "patient deleted" ]} : record), (Dict.remove patient_id file).
  unfold delete_patient, bind, load_data, Dict.delitem. rewrite Hin. simpl.
  split; [reflexivity|]. split; [apply get_remove_eq|]. split.
  - intros other Hne. apply get_remove_ne. congruence.
  - intros kv. apply in_remove.
Qed.

Lemma delete_frame_witness :
  exists (message : record) (file' : store),
    delete_patient "P001" two_patients = (Ok message, file') /\
    Dict.get "P001" file' = None /\
    (forall other, other <> "P001" -> Dict.get other file' = Dict.get other two_patients) /\
    (forall kv, In kv file' <-> In kv two_patients /\ fst kv <> "P001").
Proof. apply (delete_frame two_patients "P001"). reflexivity. Defined.

(** ** Comparison of numbers *)

Lemma Qltb_lt (p q : Q) : PyFloat.Qltb p q = true <-> (p < q)%Q.
Proof.
  unfold PyFloat.Qltb. rewrite Qlt_alt.
  destruct (p ?= q)%Q; split; congruence.
Qed.

Lemma Qleb_le (p q : Q) : PyFloat.Qleb p q = true <-> (p <= q)%Q.
Proof.
  unfold PyFloat.Qleb. rewrite Qle_alt.
  destruct (p ?= q)%Q; split; congruence.
Qed.

Lemma Qltb_compat (p q q' : Q) : (q == q')%Q -> PyFloat.Qltb p q = PyFloat.Qltb p q'.
Proof. intros Hq. unfold PyFloat.Qltb. now rewrite Hq. Qed.

Lemma Qleb_not_Qltb (p q : Q) : PyFloat.Qleb p q = true -> PyFloat.Qltb q p = false.
Proof.
  unfold PyFloat.Qleb, PyFloat.Qltb. rewrite <- (Qcompare_antisym p q).
  destruct (p ?= q)%Q; simpl; congruence.
Qed.

Lemma xle_not_xlt (x y : PyFloat.xnum) :
  PyFloat.xle x y = true -> PyFloat.xlt y x = false.
Proof.
  destruct x, y; simpl; try congruence. apply Qleb_not_Qltb.
Qed.

Lemma xlt_xle_trans (x y z : PyFloat.xnum) :
  PyFloat.xlt x y = true -> PyFloat.xle y z = true -> PyFloat.xlt x z = true.
Proof.
  destruct x, y, z; simpl; try congruence.
  rewrite !Qltb_lt, Qleb_le. apply Qlt_le_trans.
Qed.

Lemma xle_trans (x y z : PyFloat.xnum) :
  PyFloat.xle x y = true -> PyFloat.xle y z = true -> PyFloat.xle x z = true.
Proof.
  destruct x, y, z; simpl; try congruence.
  rewrite !Qleb_le. apply Qle_trans.
Qed.

Lemma xle_total (x y : PyFloat.xnum) :
  x <> PyFloat.XNaN -> y <> PyFloat.XNaN ->
  PyFloat.xlt x y = false -> PyFloat.xle y x = true.
Proof.
  destruct x, y; simpl; try congruence.
  intros _ _ Hlt. apply Qleb_le. apply Qnot_lt_le. intros Hq.
  apply Qltb_lt in Hq. congruence.
Qed.

Lemma xlt_xle (x y : PyFloat.xnum) :
  PyFloat.xlt x y = true -> PyFloat.xle x y = true.
Proof.
  destruct x, y; simpl; try congruence.
  rewrite Qltb_lt, Qleb_le. apply Qlt_le_weak.
Qed.

Lemma le_not_lt (x y : float) : PyFloat.le x y = true -> PyFloat.lt y x = false.
Proof. apply xle_not_xlt. Qed.

Lemma le_trans (x y z : float) :
  PyFloat.le x y = true -> PyFloat.le y z = true -> PyFloat.le x z = true.
Proof. apply xle_trans. Qed.

Lemma lt_le_trans (x y z : float) :
  PyFloat.lt x y = true -> PyFloat.le y z = true -> PyFloat.lt x z = true.
Proof. apply xlt_xle_trans. Qed.

Lemma lt_int_25 (x : float) : Patient.lt_int x 25 = PyFloat.lt x 25%float.
Proof.
  unfold Patient.lt_int, PyFloat.lt.
  replace (PyFloat.exact 25%float) with (PyFloat.XFin (PyFloat.dyadic 7036874417766400 (-48)))
    by (vm_compute; reflexivity).
  destruct (PyFloat.exact x); simpl; try reflexivity.
  apply Qltb_compat. reflexivity.
Qed.

Lemma lt_int_30 (x : float) : Patient.lt_int x 30 = PyFloat.lt x 30%float.
Proof.
  unfold Patient.lt_int, PyFloat.lt.
  replace (PyFloat.exact 30%float) with (PyFloat.XFin (PyFloat.dyadic 8444249301319680 (-48)))
    by (vm_compute; reflexivity).
  destruct (PyFloat.exact x); simpl; try reflexivity.
  apply Qltb_compat. reflexivity.
Qed.

(** ** The verdict (C5) *)

(** [verdict] as a function of the value of [bmi]. *)
Lemma verdict_of_bmi `{Libm} (p : Patient.t) (b : float) :
  Patient.bmi p = Ok b ->
  Patient.verdict p =
    Ok (if PyFloat.lt b 18.5%float then "Underweight"
        else if PyFloat.lt b 25%float then "Normal"
        else if PyFloat.lt b 30%float then "Overweight"
        else "Obese").
Proof.
  intros Hb. unfold Patient.verdict. rewrite Hb. simpl.
  rewrite lt_int_25, lt_int_30.
  destruct (PyFloat.lt b 18.5%float); [reflexivity|].
  destruct (PyFloat.lt b 25%float); [reflexivity|].
  destruct (PyFloat.lt b 30%float); reflexivity.
Qed.

(** C5: for a patient whose bmi is [b], the verdict is Underweight when
    b < 18.5, Normal when 18.5 <= b < 25, Overweight when 25 <= b < 30 and
    Obese when 30 <= b; so 18.5 itself is Normal, 25 Overweight and 30
    Obese. *)
Theorem verdict_thresholds `{Libm} (p : Patient.t) (b : float) :
  Patient.bmi p = Ok b ->
  (PyFloat.lt b 18.5%float = true -> Patient.verdict p = Ok "Underweight") /\
  (PyFloat.le 18.5%float b = true -> PyFloat.lt b 25%float = true ->
     Patient.verdict p = Ok "Normal") /\
  (PyFloat.le 25%float b = true -> PyFloat.lt b 30%float = true ->
     Patient.verdict p = Ok "Overweight") /\
  (PyFloat.le 30%float b = true -> Patient.verdict p = Ok "Obese") /\
  (b = 18.5%float -> Patient.verdict p = Ok "Normal") /\
  (b = 25%float -> Patient.verdict p = Ok "Overweight") /\
  (b = 30%float -> Patient.verdict p = Ok "Obese").
Proof.
  intros Hb. rewrite (verdict_of_bmi p b Hb).
  assert (H1 : PyFloat.le 18.5%float 25%float = true) by (vm_compute; reflexivity).
  assert (H2 : PyFloat.le 25%float 30%float = true) by (vm_compute; reflexivity).
  assert (Hbelow : forall lo hi, PyFloat.le lo hi = true -> PyFloat.le hi b = true ->
                                 PyFloat.lt b lo = false).
  { intros lo hi Hlohi Hhi. destruct (PyFloat.lt b lo) eqn:E; [|reflexivity].
    pose proof (lt_le_trans b lo hi E Hlohi) as Hc.
    rewrite (le_not_lt _ _ Hhi) in Hc. discriminate. }
  split; [|split; [|split; [|split; [|split; [|split]]]]].
  - intros ->. reflexivity.
  - intros Hle Hlt. rewrite (le_not_lt _ _ Hle), Hlt. reflexivity.
  - intros Hle Hlt.
    rewrite (Hbelow _ _ H1 Hle), (le_not_lt _ _ Hle), Hlt. reflexivity.
  - intros Hle.
    rewrite (Hbelow _ _ (le_trans _ _ _ H1 H2) Hle), (Hbelow _ _ H2 Hle),
      (le_not_lt _ _ Hle). reflexivity.
  - intros ->. reflexivity.
  - intros ->. reflexivity.
  - intros ->. reflexivity.
Qed.

Example bmi_18_5 `{Libm} (p : Patient.t) :
  Patient.height p = 1%float -> Patient.weight p = 18.5%float ->
  Patient.bmi p = Ok 18.5%float.
Proof. unfold Patient.bmi. intros -> ->. reflexivity. Qed.

Lemma verdict_thresholds_witness :
  Patient.verdict ananya = Ok "Normal" /\
  Patient.verdict ravi = Ok "Obese".
Proof.
  assert (Ha : Patient.bmi ananya = Ok 22.86%float) by (vm_compute; reflexivity).
  assert (Hr : Patient.bmi ravi = Ok 35.16%float) by (vm_compute; reflexivity).
  destruct (verdict_thresholds ananya 22.86%float Ha) as (_ & Hnormal & _).
  destruct (verdict_thresholds ravi 35.16%float Hr) as (_ & _ & _ & Hobese & _).
  split; [apply Hnormal | apply Hobese]; vm_compute; reflexivity.
Defined.

(** ** The body-mass index (C4) *)



Lemma pow2_errors `{Libm} (x : float) (e : error) :
  PyFloat.pow2 x = Err e -> e = OverflowError.
Proof.
  unfold PyFloat.pow2. destruct (PyFloat.exact x) as [| |q|]; try discriminate.
  destruct (Qeq_bool q 0); [discriminate|].
  destruct (PrimFloat.eqb _ 1); [discriminate|].
  destruct (is_infinity _); [|discriminate]. now intros [= <-].
Qed.



Example bmi_tiny : Patient.bmi tiny_patient = Err ZeroDivisionError.
Proof. reflexivity. Qed.

Example bmi_tall : Patient.bmi tall_patient = Err OverflowError.
Proof. reflexivity. Qed.



(** ** Validation of a Patient (C6) *)

Example validate_anonymous :
  @Patient.validate exact_types anonymous =
    Ok {| Patient.id := "P005"; Patient.name := ""; Patient.city := "";
          Patient.age := 28; Patient.gender := "female";
          Patient.height := 1.75%float; Patient.weight := 70%float |}.
Proof. reflexivity. Qed.

Example validate_three_wrong :
  @Patient.validate exact_types three_wrong =
    Err (ValidationError [("city", missing); ("age", less_than); ("gender", literal_error)]).
Proof. reflexivity. Qed.

(** C6, as stated, fails: a payload whose name and city are empty strings is
    accepted; the model puts no constraint on the length of a string. *)
Lemma empty_name_accepted :
  ~ (forall (lax : LaxMode) (kwargs : record),
       kwargs !! "name" = Some (VStr "") \/ kwargs !! "city" = Some (VStr "") ->
       exists errors, Patient.validate kwargs = Err (ValidationError errors)).
Proof.
  intros Hclaim.
  destruct (Hclaim exact_types anonymous) as (errors & Herr).
  - left. reflexivity.
  - vm_compute in Herr. discriminate.
Qed.

Section ValidateFacts.
Context `{LaxMode}.

Lemma str_accepted (input : option value) :
  accepted (Field.required Field.str input) <-> exists s, input = Some (VStr s).
Proof.
  unfold accepted. destruct input as [[]|]; simpl; split; intros [a Ha];
    try discriminate; eauto.
Qed.

Lemma id_accepted (kwargs : record) :
  accepted (Patient.validate_id kwargs) <-> satisfied kwargs "id".
Proof. apply str_accepted. Qed.

Lemma name_accepted (kwargs : record) :
  accepted (Patient.validate_name kwargs) <-> satisfied kwargs "name".
Proof. apply str_accepted. Qed.

Lemma city_accepted (kwargs : record) :
  accepted (Patient.validate_city kwargs) <-> satisfied kwargs "city".
Proof. apply str_accepted. Qed.

Lemma age_accepted (kwargs : record) :
  accepted (Patient.validate_age kwargs) <-> satisfied kwargs "age".
Proof.
  unfold accepted, satisfied, constraint, Patient.validate_age, Field.required; simpl.
  destruct (kwargs !! "age") as [v|]; split.
  - intros [a Ha]. exists v. destruct (Field.int v) as [e|z]; [discriminate|].
    exists z. unfold Field.bind, Field.gt, Field.lt in Ha.
    destruct (0 <? z)%Z eqn:E0; [|discriminate].
    destruct (z <? 120)%Z eqn:E1; [|discriminate].
    apply Z.ltb_lt in E0, E1. auto.
  - intros (v' & z & [= <-] & Hz & H0 & H1). exists z. rewrite Hz.
    unfold Field.bind, Field.gt, Field.lt.
    apply Z.ltb_lt in H0, H1. now rewrite H0, H1.
  - intros [a Ha]. discriminate.
  - intros (v & z & Hv & _). discriminate.
Qed.

Lemma gender_accepted (kwargs : record) :
  accepted (Patient.validate_gender kwargs) <-> satisfied kwargs "gender".
Proof.
  unfold accepted, satisfied, constraint, Patient.validate_gender, Field.required; simpl.
  destruct (kwargs !! "gender") as [v|]; split.
  - intros [a Ha]. destruct v; try discriminate. simpl in Ha.
    case_bool_decide; [|discriminate]. eauto.
  - intros (s & [= ->] & Hs). exists s. simpl. now rewrite bool_decide_eq_true_2.
  - intros [a Ha]. discriminate.
  - intros (s & Hs & _). discriminate.
Qed.

Lemma float_gt0_accepted (input : option value) :
  accepted (Field.required (fun v => Field.bind (Field.float v) Field.gt0) input) <->
  exists v f, input = Some v /\ Field.float v = inr f /\ PyFloat.lt 0%float f = true.
Proof.
  unfold accepted, Field.required.
  destruct input as [v|]; split.
  - intros [a Ha]. exists v. destruct (Field.float v) as [e|f]; [discriminate|].
    exists f. unfold Field.bind, Field.gt0 in Ha.
    destruct (PyFloat.lt 0%float f) eqn:E; [auto | discriminate].
  - intros (v' & f & [= <-] & Hf & Hpos). exists f. rewrite Hf.
    unfold Field.bind, Field.gt0. now rewrite Hpos.
  - intros [a Ha]. discriminate.
  - intros (v & f & Hv & _). discriminate.
Qed.

Lemma height_accepted (kwargs : record) :
  accepted (Patient.validate_height kwargs) <-> satisfied kwargs "height".
Proof. apply float_gt0_accepted. Qed.

Lemma weight_accepted (kwargs : record) :
  accepted (Patient.validate_weight kwargs) <-> satisfied kwargs "weight".
Proof. apply float_gt0_accepted. Qed.

(** Turns the constraint on a named field into a fact about its validator. *)
Ltac to_accepted :=
  first [ rewrite <- id_accepted | rewrite <- name_accepted
        | rewrite <- city_accepted | rewrite <- age_accepted
        | rewrite <- gender_accepted | rewrite <- height_accepted
        | rewrite <- weight_accepted ].

Lemma validate_ok_iff (kwargs : record) (p : Patient.t) :
  Patient.validate kwargs = Ok p <->
  Patient.validate_id kwargs = inr (Patient.id p) /\
  Patient.validate_name kwargs = inr (Patient.name p) /\
  Patient.validate_city kwargs = inr (Patient.city p) /\
  Patient.validate_age kwargs = inr (Patient.age p) /\
  Patient.validate_gender kwargs = inr (Patient.gender p) /\
  Patient.validate_height kwargs = inr (Patient.height p) /\
  Patient.validate_weight kwargs = inr (Patient.weight p).
Proof.
  unfold Patient.validate.
  destruct (Patient.validate_id kwargs), (Patient.validate_name kwargs),
    (Patient.validate_city kwargs), (Patient.validate_age kwargs),
    (Patient.validate_gender kwargs), (Patient.validate_height kwargs),
    (Patient.validate_weight kwargs); destruct p; simpl;
    (split; [intros [=]; subst; repeat split | intros (? & ? & ? & ? & ? & ? & ?); congruence]).
Qed.

Lemma validate_outcome (kwargs : record) :
  (exists p, Patient.validate kwargs = Ok p) \/
  Patient.validate kwargs = Err (ValidationError (Patient.errors kwargs)).
Proof.
  unfold Patient.validate.
  destruct (Patient.validate_id kwargs), (Patient.validate_name kwargs),
    (Patient.validate_city kwargs), (Patient.validate_age kwargs),
    (Patient.validate_gender kwargs), (Patient.validate_height kwargs),
    (Patient.validate_weight kwargs); eauto.
Qed.

Lemma elem_of_field_errors {A} (loc f : string) (k : error_kind) (r : Field.t A) :
  (f, k) ∈ Field.errors loc r <-> f = loc /\ r = inl k.
Proof.
  destruct r; simpl.
  - rewrite list_elem_of_singleton. split; [intros [= -> ->] | intros [-> [= ->]]]; auto.
  - rewrite elem_of_nil. split; [tauto | intros [_ [=]]].
Qed.

Lemma rejected_not_accepted {A} (r : Field.t A) :
  (exists k, r = inl k) <-> ~ accepted r.
Proof.
  unfold accepted. destruct r; split.
  - intros _ [a [=]].
  - eauto.
  - intros [k [=]].
  - intros Hn. exfalso. eauto.
Qed.

(** The error lists a field exactly when the constraint on that field is
    violated. *)
Lemma errors_complete (kwargs : record) (f : string) :
  (exists k, (f, k) ∈ Patient.errors kwargs) <->
  f ∈ patient_fields /\ ~ satisfied kwargs f.
Proof.
  unfold Patient.errors, patient_fields.
  split.
  - intros [k Hk].
    rewrite !elem_of_app, !elem_of_field_errors in Hk.
    destruct Hk as [[-> Hk]|[[-> Hk]|[[-> Hk]|[[-> Hk]|[[-> Hk]|[[-> Hk]|[-> Hk]]]]]]];
      (split; [repeat constructor | to_accepted; apply rejected_not_accepted; eauto]).
  - intros [Hf Hn].
    rewrite !elem_of_cons, elem_of_nil in Hf.
    destruct Hf as [->|[->|[->|[->|[->|[->|[->|[]]]]]]]];
      revert Hn; to_accepted; intros Hn;
      apply rejected_not_accepted in Hn; destruct Hn as [k Hk]; exists k;
      rewrite !elem_of_app, !elem_of_field_errors; tauto.
Qed.

End ValidateFacts.

(** C6 (amended): an empty name or city violates nothing, any string
    meets the constraint on these fields; the construction of a Patient
    succeeds when every field meets its constraint (id, name and city
    strings, 0 < age < 120, gender among the three literals, height > 0,
    weight > 0), and otherwise fails with a ValidationError that has an
    entry for each field whose constraint is violated and for no other. *)
Theorem validate_spec `{LaxMode} (kwargs : record) :
  (forall s, satisfied (<["name" := VStr s]> kwargs) "name" /\
             satisfied (<["city" := VStr s]> kwargs) "city") /\
  ((forall f, f ∈ patient_fields -> satisfied kwargs f) ->
     exists p, Patient.validate kwargs = Ok p) /\
  (~ (forall f, f ∈ patient_fields -> satisfied kwargs f) ->
     exists errors,
       Patient.validate kwargs = Err (ValidationError errors) /\
       forall f, (exists k, (f, k) ∈ errors) <-> f ∈ patient_fields /\ ~ satisfied kwargs f).
Proof.
  split; [|split].
  - intros s. unfold satisfied, constraint; simpl.
    rewrite !lookup_insert_eq. eauto.
  - intros Hall.
    pose proof (Hall "id" ltac:(repeat constructor)) as Hid. apply id_accepted in Hid.
    pose proof (Hall "name" ltac:(repeat constructor)) as Hname. apply name_accepted in Hname.
    pose proof (Hall "city" ltac:(repeat constructor)) as Hcity. apply city_accepted in Hcity.
    pose proof (Hall "age" ltac:(repeat constructor)) as Hage. apply age_accepted in Hage.
    pose proof (Hall "gender" ltac:(repeat constructor)) as Hgender. apply gender_accepted in Hgender.
    pose proof (Hall "height" ltac:(repeat constructor)) as Hheight. apply height_accepted in Hheight.
    pose proof (Hall "weight" ltac:(repeat constructor)) as Hweight. apply weight_accepted in Hweight.
    destruct Hid as [i Hi], Hname as [n Hn], Hcity as [c Hc], Hage as [a Ha],
      Hgender as [g Hg], Hheight as [h Hh], Hweight as [w Hw].
    exists {| Patient.id := i; Patient.name := n; Patient.city := c; Patient.age := a;
              Patient.gender := g; Patient.height := h; Patient.weight := w |}.
    apply validate_ok_iff. simpl. auto 10.
  - intros Hsome. exists (Patient.errors kwargs). split; [|apply errors_complete].
    destruct (validate_outcome kwargs) as [[p Hp]|Herr]; [|exact Herr].
    exfalso. apply Hsome. intros f Hf.
    apply validate_ok_iff in Hp. destruct Hp as (Hi & Hn & Hc & Ha & Hg & Hh & Hw).
    unfold patient_fields in Hf. rewrite !elem_of_cons, elem_of_nil in Hf.
    destruct Hf as [->|[->|[->|[->|[->|[->|[->|[]]]]]]]].
    + apply id_accepted. red. eauto.
    + apply name_accepted. red. eauto.
    + apply city_accepted. red. eauto.
    + apply age_accepted. red. eauto.
    + apply gender_accepted. red. eauto.
    + apply height_accepted. red. eauto.
    + apply weight_accepted. red. eauto.
Qed.

Lemma validate_spec_witness :
  (exists p, @Patient.validate exact_types anonymous = Ok p) /\
  (exists errors,
     @Patient.validate exact_types three_wrong = Err (ValidationError errors) /\
     forall f, (exists k, (f, k) ∈ errors) <->
               f ∈ patient_fields /\ ~ @satisfied exact_types three_wrong f).
Proof.
  destruct (@validate_spec exact_types anonymous) as (_ & Hvalid & _).
  destruct (@validate_spec exact_types three_wrong) as (_ & _ & Hinvalid).
  split.
  - apply Hvalid. intros f Hf.
    unfold patient_fields in Hf. rewrite !elem_of_cons, elem_of_nil in Hf.
    destruct Hf as [->|[->|[->|[->|[->|[->|[->|[]]]]]]]].
    + apply (@id_accepted exact_types). eexists. reflexivity.
    + apply (@name_accepted exact_types). eexists. reflexivity.
    + apply (@city_accepted exact_types). eexists. reflexivity.
    + apply (@age_accepted exact_types). eexists. reflexivity.
    + apply (@gender_accepted exact_types). eexists. reflexivity.
    + apply (@height_accepted exact_types). eexists. reflexivity.
    + apply (@weight_accepted exact_types). eexists. reflexivity.
  - apply Hinvalid. intros Hall.
    assert (Hcity : @satisfied exact_types three_wrong "city") by (apply Hall; repeat constructor).
    apply (@city_accepted exact_types) in Hcity. destruct Hcity as [c Hc].
    vm_compute in Hc. discriminate.
Defined.

(** ** What the handlers write *)

Lemma model_dump_without_id `{Libm} (p : Patient.t) (d : record) :
  Patient.model_dump ["id"] p = Ok d <->
  exists b v, Patient.bmi p = Ok b /\ Patient.verdict p = Ok v /\ d = stored p b v.
Proof.
  unfold Patient.model_dump, stored.
  destruct (Patient.bmi p) as [b|e]; simpl.
  - destruct (Patient.verdict p) as [v|e]; simpl.
    + rewrite delete_insert_eq. split.
      * intros [= <-]. eauto.
      * intros (b' & v' & [= <-] & [= <-] & ->). reflexivity.
    + split; [discriminate | intros (b' & v' & _ & [=] & _)].
  - split; [discriminate | intros (b' & v' & [=] & _)].
Qed.

Lemma model_dump_all `{Libm} (p : Patient.t) (b : float) (v : string) :
  Patient.bmi p = Ok b -> Patient.verdict p = Ok v ->
  Patient.model_dump [] p = Ok (<["id" := VStr (Patient.id p)]> (stored p b v)).
Proof. intros Hb Hv. unfold Patient.model_dump. now rewrite Hb, Hv. Qed.

Lemma create_patient_eq `{Libm} (patient : Patient.t) (file : store) :
  create_patient patient file =
    if Dict.contains (Patient.id patient) file then (Err AlreadyExists, file)
    else match Patient.model_dump ["id"] patient with
         | Err e => (Err e, file)
         | Ok d =>
             (result_bind (Patient.model_dump [] patient) (JSONResponse_init 201),
              Dict.set (Patient.id patient) d file)
         end.
Proof.
  unfold create_patient, bind, load_data.
  destruct (Dict.contains (Patient.id patient) file); [reflexivity|].
  destruct (Patient.model_dump ["id"] patient) as [d|e] eqn:Hd; simpl; [|reflexivity].
  destruct (Patient.model_dump [] patient) as [c|e]; simpl; [|reflexivity].
  destruct (JSONResponse_init 201 c); reflexivity.
Qed.

Lemma update_patient_eq `{LaxMode} `{Libm} (patient_id : string) (u : PatientUpdate.t)
    (file : store) :
  update_patient patient_id u file =
    match Dict.get patient_id file with
    | None => (Err NotFound, file)
    | Some existing =>
        match Patient.validate
                (merge existing (PatientUpdate.model_dump_exclude_unset u) patient_id) with
        | Err e => (Err e, file)
        | Ok patient_obj =>
            match Patient.model_dump ["id"] patient_obj with
            | Err e => (Err e, file)
            | Ok d => (Ok patient_obj, Dict.set patient_id d file)
            end
        end
    end.
Proof.
  unfold update_patient, bind, load_data, Dict.contains, Dict.getitem.
  destruct (Dict.get patient_id file) as [existing|]; simpl; [|reflexivity].
  destruct (Patient.validate _) as [patient_obj|e]; simpl; [|reflexivity].
  destruct (Patient.model_dump ["id"] patient_obj); reflexivity.
Qed.

Lemma put_edit_eq `{LaxMode} `{Libm} (patient_id : string) (body : record) (file : store) :
  put_edit patient_id body file =
    match PatientUpdate.validate body with
    | Err e => (Err e, file)
    | Ok u => update_patient patient_id u file
    end.
Proof.
  unfold put_edit, bind, lift.
  destruct (PatientUpdate.validate body); reflexivity.
Qed.

(** ** What is persisted (C1) *)

(** C1, as stated, fails: after [create_patient] on the empty store the
    value under P001 has the keys bmi and verdict. *)
Lemma create_persists_bmi :
  ~ (forall (file file' : store) (patient : Patient.t) (response : JSONResponse),
       @create_patient correctly_rounded patient file = (Ok response, file') ->
       exists r : record,
         Dict.get (Patient.id patient) file' = Some r /\
         r !! "bmi" = None /\ r !! "verdict" = None).
Proof.
  intros Hclaim.
  destruct (Hclaim [] one_patient ananya
              {| status_code := 201; content := <["id" := VStr "P001"]> ananya_stored |})
    as (r & Hr & Hbmi & _).
  - reflexivity.
  - change (Some ananya_stored = Some r) in Hr. injection Hr as <-. discriminate.
Qed.

(** C1 (amended): after a successful create or update, the value persisted
    under the patient id consists of the six non-id fields together with
    bmi and verdict, both computed from the patient being written, and has
    no id; the response of create carries the same computed fields; get
    returns the persisted value as it is, bmi and verdict included, without
    recomputing them. *)
Theorem persisted_value `{LaxMode} `{Libm} (file file' : store) :
  (forall (patient : Patient.t) (response : JSONResponse),
     create_patient patient file = (Ok response, file') ->
     persisted patient (Patient.id patient) file' /\
     exists r, Dict.get (Patient.id patient) file' = Some r /\
               content response = <["id" := VStr (Patient.id patient)]> r) /\
  (forall (patient_id : string) (u : PatientUpdate.t) (patient_obj : Patient.t),
     update_patient patient_id u file = (Ok patient_obj, file') ->
     persisted patient_obj patient_id file') /\
  (forall (p : Patient.t) (b : float) (v : string),
     dom (stored p b v) =
       list_to_set ["name"; "city"; "age"; "gender"; "height"; "weight"; "bmi"; "verdict"]) /\
  (forall (patient_id : string) (r : record),
     Dict.get patient_id file = Some r ->
     view_patient patient_id file = (Ok r, file)).
Proof.
  split; [|split; [|split]].
  - intros patient response. rewrite create_patient_eq.
    destruct (Dict.contains (Patient.id patient) file); [discriminate|].
    destruct (Patient.model_dump ["id"] patient) as [d|e] eqn:Hd; [|discriminate].
    apply model_dump_without_id in Hd. destruct Hd as (b & v & Hb & Hv & ->).
    rewrite (model_dump_all patient b v Hb Hv). simpl.
    unfold JSONResponse_init. case_bool_decide; [|discriminate].
    intros [= <- <-]. split.
    + exists b, v. repeat split; auto. apply get_set_eq.
    + exists (stored patient b v). split; [apply get_set_eq | reflexivity].
  - intros patient_id u patient_obj. rewrite update_patient_eq.
    destruct (Dict.get patient_id file) as [existing|]; [|discriminate].
    destruct (Patient.validate _) as [p'|e]; [|discriminate].
    destruct (Patient.model_dump ["id"] p') as [d|e] eqn:Hd; [|discriminate].
    apply model_dump_without_id in Hd. destruct Hd as (b & v & Hb & Hv & ->).
    intros [= <- <-]. exists b, v. repeat split; auto. apply get_set_eq.
  - intros p b v. unfold stored. rewrite !dom_insert_L, dom_singleton_L.
    simpl. set_solver.
  - intros patient_id r. apply view_patient_present.
Qed.

Lemma persisted_value_witness :
  persisted ananya "P001" one_patient /\
  view_patient "P001" one_patient = (Ok ananya_stored, one_patient).
Proof.
  destruct (@persisted_value exact_types correctly_rounded [] one_patient) as (Hcreate & _).
  destruct (@persisted_value exact_types correctly_rounded one_patient one_patient) as (_ & _ & _ & Hview).
  split.
  - apply (Hcreate ananya
             {| status_code := 201; content := <["id" := VStr "P001"]> ananya_stored |}).
    reflexivity.
  - apply Hview. reflexivity.
Defined.

(** ** The update payload *)

Section UpdateFacts.
Context `{LaxMode}.

Lemma lookup_entry (u : PatientUpdate.t) (f k : string) (v : value) (d : record) :
  PatientUpdate.entry u f v d !! k =
    if bool_decide (f ∈ PatientUpdate.model_fields_set u) && String.eqb f k
    then Some v else d !! k.
Proof.
  unfold PatientUpdate.entry.
  destruct (bool_decide (f ∈ PatientUpdate.model_fields_set u)); simpl; [|reflexivity].
  destruct (String.eqb f k) eqn:E.
  - apply String.eqb_eq in E. subst. apply lookup_insert_eq.
  - apply String.eqb_neq in E. now apply lookup_insert_ne.
Qed.

(** A key that is no field of [PatientUpdate], such as id, is not in the
    dump. *)
Lemma lookup_updates_other (u : PatientUpdate.t) (k : string) :
  k ∉ PatientUpdate.fields ->
  PatientUpdate.model_dump_exclude_unset u !! k = None.
Proof.
  unfold PatientUpdate.fields. rewrite !not_elem_of_cons. intros (H1 & H2 & H3 & H4 & H5 & H6 & _).
  unfold PatientUpdate.model_dump_exclude_unset. rewrite !lookup_entry.
  repeat match goal with
         | Hne : k <> ?f |- context [String.eqb ?f k] =>
             replace (String.eqb f k) with false
               by (symmetry; apply String.eqb_neq; congruence)
         end.
  rewrite !andb_false_r. apply lookup_empty.
Qed.

Lemma validate_update_outcome (body : record) :
  (exists u, PatientUpdate.validate body = Ok u) \/
  PatientUpdate.validate body = Err (ValidationError (PatientUpdate.errors body)).
Proof.
  unfold PatientUpdate.validate.
  destruct (PatientUpdate.validate_name body), (PatientUpdate.validate_city body),
    (PatientUpdate.validate_age body), (PatientUpdate.validate_gender body),
    (PatientUpdate.validate_height body), (PatientUpdate.validate_weight body); eauto.
Qed.

Lemma elem_of_supplied (body : record) (f : string) :
  f ∈ PatientUpdate.supplied body <-> f ∈ PatientUpdate.fields /\ is_Some (body !! f).
Proof.
  unfold PatientUpdate.supplied.
  rewrite elem_of_list_to_set, list_elem_of_In, List.filter_In, bool_decide_eq_true,
    <- list_elem_of_In.
  reflexivity.
Qed.

Lemma validate_update_ok (body : record) (u : PatientUpdate.t) :
  PatientUpdate.validate body = Ok u ->
  PatientUpdate.validate_name body = inr (PatientUpdate.name u) /\
  PatientUpdate.validate_city body = inr (PatientUpdate.city u) /\
  PatientUpdate.validate_age body = inr (PatientUpdate.age u) /\
  PatientUpdate.validate_gender body = inr (PatientUpdate.gender u) /\
  PatientUpdate.validate_height body = inr (PatientUpdate.height u) /\
  PatientUpdate.validate_weight body = inr (PatientUpdate.weight u) /\
  forall f, f ∈ PatientUpdate.model_fields_set u <->
            f ∈ PatientUpdate.fields /\ is_Some (body !! f).
Proof.
  unfold PatientUpdate.validate.
  destruct (PatientUpdate.validate_name body), (PatientUpdate.validate_city body),
    (PatientUpdate.validate_age body), (PatientUpdate.validate_gender body),
    (PatientUpdate.validate_height body), (PatientUpdate.validate_weight body);
    try discriminate.
  intros [= <-]. do 6 (split; [reflexivity|]).
  intros f. cbn [PatientUpdate.model_fields_set]. apply elem_of_supplied.
Qed.

(** An id in the body is ignored. *)
Lemma validate_update_ignores_id (body : record) (v : value) :
  PatientUpdate.validate (<["id" := v]> body) = PatientUpdate.validate body.
Proof.
  unfold PatientUpdate.validate, PatientUpdate.errors, PatientUpdate.validate_name,
    PatientUpdate.validate_city, PatientUpdate.validate_age, PatientUpdate.validate_gender,
    PatientUpdate.validate_height, PatientUpdate.validate_weight, PatientUpdate.supplied,
    PatientUpdate.fields.
  simpl. rewrite !lookup_insert_ne by discriminate. reflexivity.
Qed.

End UpdateFacts.

(** ** An update that does not validate (C7) *)

Section UpdateInvalid.
Context `{LaxMode} `{Libm}.

Lemma put_edit_invalid (file : store) (patient_id : string) (existing body : record) :
  Dict.get patient_id file = Some existing ->
  (forall u, PatientUpdate.validate body = Ok u ->
     exists errors,
       Patient.validate
         (merge existing (PatientUpdate.model_dump_exclude_unset u) patient_id) =
       Err (ValidationError errors)) ->
  exists errors, put_edit patient_id body file = (Err (ValidationError errors), file).
Proof.
  intros Hget Hmerged. rewrite put_edit_eq.
  destruct (validate_update_outcome body) as [[u Hu]|Herr].
  - rewrite Hu, update_patient_eq, Hget.
    destruct (Hmerged u Hu) as [errors ->]. eauto.
  - rewrite Herr. eauto.
Qed.

(** An age outside 0 < age < 120 in the body makes the body or the merged
    record invalid. *)
Lemma age_out_of_range (patient_id : string) (existing body : record) (z : Z)
    (u : PatientUpdate.t) :
  z <= 0 \/ 120 <= z ->
  body !! "age" = Some (VInt z) ->
  PatientUpdate.validate body = Ok u ->
  exists errors,
    Patient.validate
      (merge existing (PatientUpdate.model_dump_exclude_unset u) patient_id) =
    Err (ValidationError errors).
Proof.
  intros Hz Hbody Hu.
  destruct (validate_update_ok body u Hu) as (_ & _ & Hage & _ & _ & _ & Hset).
  unfold PatientUpdate.validate_age in Hage. rewrite Hbody in Hage.
  unfold Field.optional, Field.bind, Field.int, Field.gt in Hage.
  destruct (0 <? z)%Z eqn:E0; [|discriminate].
  apply Z.ltb_lt in E0. injection Hage as Hage.
  assert (Hin : "age" ∈ PatientUpdate.model_fields_set u).
  { apply Hset. split; [repeat constructor | rewrite Hbody; eauto]. }
  set (merged := merge existing (PatientUpdate.model_dump_exclude_unset u) patient_id).
  assert (Hmerged : merged !! "age" = Some (VInt z)).
  { unfold merged, merge. rewrite lookup_insert_ne by discriminate.
    apply lookup_union_Some_l.
    unfold PatientUpdate.model_dump_exclude_unset. rewrite !lookup_entry.
    rewrite (bool_decide_eq_true_2 _ Hin). simpl.
    rewrite !andb_false_r. now rewrite <- Hage. }
  destruct (validate_outcome merged) as [[p Hp]|Herr]; [|eauto].
  exfalso. apply validate_ok_iff in Hp. destruct Hp as (_ & _ & _ & Hp & _).
  unfold Patient.validate_age in Hp. rewrite Hmerged in Hp.
  unfold Field.required, Field.bind, Field.int, Field.gt, Field.lt in Hp.
  apply Z.ltb_lt in E0. rewrite E0 in Hp.
  destruct (z <? 120)%Z eqn:E1; [|discriminate].
  apply Z.ltb_lt in E0, E1. lia.
Qed.

End UpdateInvalid.

(** C7: for a record that exists, a payload that is rejected, either as a
    body or because the record merged from it violates a constraint of
    Patient, makes the update fail with a ValidationError and leaves the
    file exactly as it was; an age of 0 or less, or of 120 or more, in the
    payload is such a case. *)
Theorem update_invalid_no_write `{LaxMode} `{Libm} (file : store) (patient_id : string)
    (existing body : record) :
  Dict.get patient_id file = Some existing ->
  ((forall u, PatientUpdate.validate body = Ok u ->
      exists errors,
        Patient.validate
          (merge existing (PatientUpdate.model_dump_exclude_unset u) patient_id) =
        Err (ValidationError errors)) ->
   exists errors, put_edit patient_id body file = (Err (ValidationError errors), file)) /\
  (forall z, z <= 0 \/ 120 <= z -> body !! "age" = Some (VInt z) ->
   exists errors, put_edit patient_id body file = (Err (ValidationError errors), file)).
Proof.
  intros Hget. split.
  - now apply put_edit_invalid.
  - intros z Hz Hbody. apply (put_edit_invalid file patient_id existing body Hget).
    intros u. now apply (age_out_of_range patient_id existing body z).
Qed.

Lemma update_invalid_no_write_witness :
  (exists errors,
     @put_edit exact_types correctly_rounded "P001" {[ "age" := VInt 0 ]} one_patient =
       (Err (ValidationError errors), one_patient)) /\
  (exists errors,
     @put_edit exact_types correctly_rounded "P001" {[ "age" := VInt 120; "city" := VStr "Pune" ]} one_patient =
       (Err (ValidationError errors), one_patient)).
Proof.
  split.
  - destruct (@update_invalid_no_write exact_types correctly_rounded one_patient "P001" ananya_stored
                {[ "age" := VInt 0 ]} eq_refl) as [_ Hage].
    apply (Hage 0); [lia | reflexivity].
  - destruct (@update_invalid_no_write exact_types correctly_rounded one_patient "P001" ananya_stored
                {[ "age" := VInt 120; "city" := VStr "Pune" ]} eq_refl) as [_ Hage].
    apply (Hage 120); [lia | reflexivity].
Defined.

Example edit_age_0 :
  @put_edit exact_types correctly_rounded "P001" {[ "age" := VInt 0 ]} one_patient =
    (Err (ValidationError [("age", greater_than)]), one_patient).
Proof. reflexivity. Qed.

Example edit_age_120 :
  @put_edit exact_types correctly_rounded "P001" {[ "age" := VInt 120; "city" := VStr "Pune" ]} one_patient =
    (Err (ValidationError [("age", less_than)]), one_patient).
Proof. reflexivity. Qed.

(** ** A successful update (C9) *)

Section UpdateFrame.
Context `{LaxMode}.

Lemma optional_Some {A} (validator : value -> Field.t A) (v : value) (o : option A) :
  Field.optional validator (Some v) = inr o ->
  (v = VNone /\ o = None) \/
  (v <> VNone /\ exists a, validator v = inr a /\ o = Some a).
Proof.
  unfold Field.optional, Field.bind.
  destruct v; try (destruct (validator _) as [e|a]; [discriminate|];
                   intros [= <-]; right; split; [discriminate | eauto]).
  intros [= <-]. auto.
Qed.

Lemma lookup_merge (existing updates : record) (patient_id f : string) :
  f <> "id" ->
  merge existing updates patient_id !! f =
    match updates !! f with
    | Some v => Some v
    | None => existing !! f
    end.
Proof.
  intros Hf. unfold merge. rewrite lookup_insert_ne by congruence.
  rewrite lookup_union. destruct (updates !! f), (existing !! f); reflexivity.
Qed.

Lemma lookup_merge_id (existing updates : record) (patient_id : string) :
  merge existing updates patient_id !! "id" = Some (VStr patient_id).
Proof. apply lookup_insert_eq. Qed.

Lemma lookup_updates (u : PatientUpdate.t) :
  let d := PatientUpdate.model_dump_exclude_unset u in
  d !! "name" = payload_entry u "name" (PatientUpdate.dump VStr (PatientUpdate.name u)) /\
  d !! "city" = payload_entry u "city" (PatientUpdate.dump VStr (PatientUpdate.city u)) /\
  d !! "age" = payload_entry u "age" (PatientUpdate.dump VInt (PatientUpdate.age u)) /\
  d !! "gender" = payload_entry u "gender" (PatientUpdate.dump VStr (PatientUpdate.gender u)) /\
  d !! "height" = payload_entry u "height" (PatientUpdate.dump VFloat (PatientUpdate.height u)) /\
  d !! "weight" = payload_entry u "weight" (PatientUpdate.dump VFloat (PatientUpdate.weight u)).
Proof.
  unfold PatientUpdate.model_dump_exclude_unset, payload_entry. simpl.
  rewrite !lookup_entry. simpl. rewrite !andb_false_r, !andb_true_r, lookup_empty.
  repeat split; reflexivity.
Qed.

(** The field [f] of the merged record, when the body with input [input]
    for [f] validated to [o]. *)
Lemma merged_field {A} (body existing : record) (u : PatientUpdate.t)
    (patient_id f : string) (validator : value -> Field.t A) (inj : A -> value)
    (o : option A) :
  f <> "id" -> f ∈ PatientUpdate.fields ->
  (forall g, g ∈ PatientUpdate.model_fields_set u <->
             g ∈ PatientUpdate.fields /\ is_Some (body !! g)) ->
  Field.optional validator (body !! f) = inr o ->
  PatientUpdate.model_dump_exclude_unset u !! f = payload_entry u f (PatientUpdate.dump inj o) ->
  match body !! f with
  | None =>
      merge existing (PatientUpdate.model_dump_exclude_unset u) patient_id !! f =
        (<["id" := VStr patient_id]> existing) !! f
  | Some v =>
      (v = VNone /\
       merge existing (PatientUpdate.model_dump_exclude_unset u) patient_id !! f = Some VNone) \/
      (exists a, validator v = inr a /\
         merge existing (PatientUpdate.model_dump_exclude_unset u) patient_id !! f =
           Some (inj a))
  end.
Proof.
  intros Hid Hf Hset Hval Hlook.
  rewrite lookup_merge, Hlook by assumption. unfold payload_entry.
  destruct (body !! f) as [v|] eqn:Hb.
  - rewrite bool_decide_eq_true_2 by (apply Hset; rewrite Hb; eauto).
    apply optional_Some in Hval. destruct Hval as [[-> ->]|(_ & a & Ha & ->)]; simpl; eauto.
  - rewrite bool_decide_eq_false_2.
    + now rewrite lookup_insert_ne by congruence.
    + intros Hin. apply Hset in Hin. destruct Hin as [_ [x Hx]]. congruence.
Qed.

Section Fields.
Variables (body existing : record) (u : PatientUpdate.t) (patient_id : string).
Variables (p0 patient_obj : Patient.t).
Let merged := merge existing (PatientUpdate.model_dump_exclude_unset u) patient_id.
Hypothesis Hu : PatientUpdate.validate body = Ok u.
Hypothesis Hp0 : Patient.validate (<["id" := VStr patient_id]> existing) = Ok p0.
Hypothesis Hobj : Patient.validate merged = Ok patient_obj.

Lemma merged_id : Patient.id patient_obj = patient_id /\ Patient.id p0 = patient_id.
Proof.
  apply validate_ok_iff in Hobj, Hp0.
  destruct Hobj as (Hi & _), Hp0 as (Hi0 & _).
  unfold Patient.validate_id, merged in *.
  rewrite lookup_merge_id in Hi. rewrite lookup_insert_eq in Hi0.
  simpl in *. split; congruence.
Qed.

Lemma merged_name :
  overwritten (body !! "name") Field.str (Patient.name p0) (Patient.name patient_obj).
Proof.
  apply validate_ok_iff in Hobj, Hp0.
  destruct Hobj as (_ & Hn & _), Hp0 as (_ & Hn0 & _).
  destruct (validate_update_ok body u Hu) as (Hv & _ & _ & _ & _ & _ & Hset).
  destruct (lookup_updates u) as (Hl & _).
  pose proof (merged_field body existing u patient_id "name" Field.str VStr _
                ltac:(discriminate) ltac:(repeat constructor) Hset Hv Hl) as Hm.
  unfold overwritten, Patient.validate_name, merged in *.
  destruct (body !! "name") as [v|].
  - destruct Hm as [[-> Hm]|(a & Ha & Hm)]; rewrite Hm in Hn; simpl in Hn.
    + discriminate.
    + congruence.
  - rewrite Hm in Hn. congruence.
Qed.

Lemma merged_city :
  overwritten (body !! "city") Field.str (Patient.city p0) (Patient.city patient_obj).
Proof.
  apply validate_ok_iff in Hobj, Hp0.
  destruct Hobj as (_ & _ & Hn & _), Hp0 as (_ & _ & Hn0 & _).
  destruct (validate_update_ok body u Hu) as (_ & Hv & _ & _ & _ & _ & Hset).
  destruct (lookup_updates u) as (_ & Hl & _).
  pose proof (merged_field body existing u patient_id "city" Field.str VStr _
                ltac:(discriminate) ltac:(repeat constructor) Hset Hv Hl) as Hm.
  unfold overwritten, Patient.validate_city, merged in *.
  destruct (body !! "city") as [v|].
  - destruct Hm as [[-> Hm]|(a & Ha & Hm)]; rewrite Hm in Hn; simpl in Hn.
    + discriminate.
    + congruence.
  - rewrite Hm in Hn. congruence.
Qed.

Lemma merged_age :
  overwritten (body !! "age") Field.int (Patient.age p0) (Patient.age patient_obj).
Proof.
  apply validate_ok_iff in Hobj, Hp0.
  destruct Hobj as (_ & _ & _ & Hn & _), Hp0 as (_ & _ & _ & Hn0 & _).
  destruct (validate_update_ok body u Hu) as (_ & _ & Hv & _ & _ & _ & Hset).
  destruct (lookup_updates u) as (_ & _ & Hl & _).
  pose proof (merged_field body existing u patient_id "age" _ VInt _
                ltac:(discriminate) ltac:(repeat constructor) Hset Hv Hl) as Hm.
  unfold overwritten, Patient.validate_age, merged in *.
  destruct (body !! "age") as [v|].
  - destruct Hm as [[-> Hm]|(a & Ha & Hm)]; rewrite Hm in Hn; simpl in Hn.
    + discriminate.
    + unfold Field.bind, Field.gt, Field.lt in Ha, Hn.
      destruct (Field.int v) as [e|z]; [discriminate|].
      destruct (0 <? z)%Z; [|discriminate]. injection Ha as ->.
      destruct (0 <? a)%Z; [|discriminate].
      destruct (a <? 120)%Z; [|discriminate]. congruence.
  - rewrite Hm in Hn. congruence.
Qed.

Lemma merged_gender :
  overwritten (body !! "gender") (Field.literal genders)
    (Patient.gender p0) (Patient.gender patient_obj).
Proof.
  apply validate_ok_iff in Hobj, Hp0.
  destruct Hobj as (_ & _ & _ & _ & Hn & _), Hp0 as (_ & _ & _ & _ & Hn0 & _).
  destruct (validate_update_ok body u Hu) as (_ & _ & _ & Hv & _ & _ & Hset).
  destruct (lookup_updates u) as (_ & _ & _ & Hl & _).
  pose proof (merged_field body existing u patient_id "gender" _ VStr _
                ltac:(discriminate) ltac:(repeat constructor) Hset Hv Hl) as Hm.
  unfold overwritten, Patient.validate_gender, merged in *.
  destruct (body !! "gender") as [v|].
  - destruct Hm as [[-> Hm]|(a & Ha & Hm)]; rewrite Hm in Hn; simpl in Hn.
    + discriminate.
    + destruct (bool_decide (a ∈ genders)); [|discriminate]. congruence.
  - rewrite Hm in Hn. congruence.
Qed.

Lemma merged_height :
  overwritten (body !! "height") Field.float
    (Patient.height p0) (Patient.height patient_obj).
Proof.
  apply validate_ok_iff in Hobj, Hp0.
  destruct Hobj as (_ & _ & _ & _ & _ & Hn & _), Hp0 as (_ & _ & _ & _ & _ & Hn0 & _).
  destruct (validate_update_ok body u Hu) as (_ & _ & _ & _ & Hv & _ & Hset).
  destruct (lookup_updates u) as (_ & _ & _ & _ & Hl & _).
  pose proof (merged_field body existing u patient_id "height" _ VFloat _
                ltac:(discriminate) ltac:(repeat constructor) Hset Hv Hl) as Hm.
  unfold overwritten, Patient.validate_height, merged in *.
  destruct (body !! "height") as [v|].
  - destruct Hm as [[-> Hm]|(a & Ha & Hm)]; rewrite Hm in Hn; simpl in Hn.
    + discriminate.
    + unfold Field.bind, Field.gt0 in Ha, Hn.
      destruct (Field.float v) as [e|z]; [discriminate|].
      destruct (PyFloat.lt 0 z); [|discriminate]. injection Ha as ->.
      destruct (PyFloat.lt 0 a); [|discriminate]. congruence.
  - rewrite Hm in Hn. congruence.
Qed.

Lemma merged_weight :
  overwritten (body !! "weight") Field.float
    (Patient.weight p0) (Patient.weight patient_obj).
Proof.
  apply validate_ok_iff in Hobj, Hp0.
  destruct Hobj as (_ & _ & _ & _ & _ & _ & Hn), Hp0 as (_ & _ & _ & _ & _ & _ & Hn0).
  destruct (validate_update_ok body u Hu) as (_ & _ & _ & _ & _ & Hv & Hset).
  destruct (lookup_updates u) as (_ & _ & _ & _ & _ & Hl).
  pose proof (merged_field body existing u patient_id "weight" _ VFloat _
                ltac:(discriminate) ltac:(repeat constructor) Hset Hv Hl) as Hm.
  unfold overwritten, Patient.validate_weight, merged in *.
  destruct (body !! "weight") as [v|].
  - destruct Hm as [[-> Hm]|(a & Ha & Hm)]; rewrite Hm in Hn; simpl in Hn.
    + discriminate.
    + unfold Field.bind, Field.gt0 in Ha, Hn.
      destruct (Field.float v) as [e|z]; [discriminate|].
      destruct (PyFloat.lt 0 z); [|discriminate]. injection Ha as ->.
      destruct (PyFloat.lt 0 a); [|discriminate]. congruence.
  - rewrite Hm in Hn. congruence.
Qed.

End Fields.

End UpdateFrame.

Example edit_shrink :
  @put_edit exact_types correctly_rounded "P001" shrink one_patient =
    (Err ZeroDivisionError, one_patient).
Proof. reflexivity. Qed.

(** C9, as stated, fails: the body that sets the height of P001 to 1e-200
    is a valid partial update, of a valid record, and it validates once
    merged; yet the update does not take place: the bmi of the merged
    patient raises [ZeroDivisionError] and no field is overwritten. *)
Lemma valid_update_not_applied :
  ~ (forall (lax : LaxMode) (libm : Libm) (file : store) (patient_id : string)
            (existing body : record) (p0 patient_obj : Patient.t) (u : PatientUpdate.t),
       Dict.get patient_id file = Some existing ->
       Patient.validate (<["id" := VStr patient_id]> existing) = Ok p0 ->
       PatientUpdate.validate body = Ok u ->
       Patient.validate
         (merge existing (PatientUpdate.model_dump_exclude_unset u) patient_id) =
         Ok patient_obj ->
       exists file' : store,
         put_edit patient_id body file = (Ok patient_obj, file') /\
         overwritten (body !! "height") Field.float
           (Patient.height p0) (Patient.height patient_obj)).
Proof.
  intros Hclaim.
  destruct (Hclaim exact_types correctly_rounded one_patient "P001" ananya_stored shrink
              ananya ananya_shrunk shrink_model eq_refl eq_refl eq_refl eq_refl)
    as (file' & Hput & _).
  rewrite edit_shrink in Hput. discriminate.
Qed.

(** C9 (amended): for a record that exists and is valid at rest, and a
    payload that validates, also once merged: each of the six fields of the
    merged patient is the supplied one when the payload supplies it and the
    stored one when it does not, its id is the path id, and an id in the
    payload changes nothing.  When the bmi of the merged patient is
    computable the handler returns the merged patient: it has persisted
    these six fields together with the bmi and the verdict recomputed from
    them, which thus change with the height or the weight although the
    payload cannot supply them, under the same key at the same place, and
    left the other records as they were.  When it is not, the handler raises
    [ZeroDivisionError] or [OverflowError] and writes nothing. *)
Theorem update_frame `{LaxMode} `{Libm} (file : store) (patient_id : string)
    (existing body : record) (p0 patient_obj : Patient.t) (u : PatientUpdate.t) :
  Dict.get patient_id file = Some existing ->
  Patient.validate (<["id" := VStr patient_id]> existing) = Ok p0 ->
  PatientUpdate.validate body = Ok u ->
  Patient.validate
    (merge existing (PatientUpdate.model_dump_exclude_unset u) patient_id) = Ok patient_obj ->
  (overwritten (body !! "name") Field.str (Patient.name p0) (Patient.name patient_obj) /\
   overwritten (body !! "city") Field.str (Patient.city p0) (Patient.city patient_obj) /\
   overwritten (body !! "age") Field.int (Patient.age p0) (Patient.age patient_obj) /\
   overwritten (body !! "gender") (Field.literal genders)
     (Patient.gender p0) (Patient.gender patient_obj) /\
   overwritten (body !! "height") Field.float
     (Patient.height p0) (Patient.height patient_obj) /\
   overwritten (body !! "weight") Field.float
     (Patient.weight p0) (Patient.weight patient_obj)) /\
  (Patient.id patient_obj = patient_id /\ Patient.id p0 = patient_id) /\
  (forall b, Patient.bmi patient_obj = Ok b ->
     exists v,
       Patient.verdict patient_obj = Ok v /\
       let file' := Dict.set patient_id (stored patient_obj b v) file in
       put_edit patient_id body file = (Ok patient_obj, file') /\
       Dict.get patient_id file' = Some (stored patient_obj b v) /\
       Dict.keys file' = Dict.keys file /\
       forall other, other <> patient_id -> Dict.get other file' = Dict.get other file) /\
  (forall e, Patient.bmi patient_obj = Err e ->
     put_edit patient_id body file = (Err e, file) /\
     (e = ZeroDivisionError \/ e = OverflowError)) /\
  (forall v, put_edit patient_id (<["id" := v]> body) file = put_edit patient_id body file).
Proof.
  intros Hget Hp0 Hu Hobj.
  split; [|split; [|split; [|split]]].
  - split; [|split; [|split; [|split; [|split]]]].
    + exact (merged_name body existing u patient_id p0 patient_obj Hu Hp0 Hobj).
    + exact (merged_city body existing u patient_id p0 patient_obj Hu Hp0 Hobj).
    + exact (merged_age body existing u patient_id p0 patient_obj Hu Hp0 Hobj).
    + exact (merged_gender body existing u patient_id p0 patient_obj Hu Hp0 Hobj).
    + exact (merged_height body existing u patient_id p0 patient_obj Hu Hp0 Hobj).
    + exact (merged_weight body existing u patient_id p0 patient_obj Hu Hp0 Hobj).
  - exact (merged_id existing u patient_id p0 patient_obj Hp0 Hobj).
  - intros b Hb. pose proof (verdict_of_bmi patient_obj b Hb) as Hv.
    match type of Hv with _ = Ok ?s => set (v := s) in * end.
    exists v. split; [exact Hv|].
    assert (Hd : Patient.model_dump ["id"] patient_obj = Ok (stored patient_obj b v))
      by (apply model_dump_without_id; eauto).
    split; [|split; [|split]].
    + rewrite put_edit_eq, Hu, update_patient_eq, Hget, Hobj, Hd. reflexivity.
    + apply get_set_eq.
    + apply keys_set_present. apply contains_get. rewrite Hget. eauto.
    + intros other Hne. apply get_set_ne. congruence.
  - intros e He. split.
    + rewrite put_edit_eq, Hu, update_patient_eq, Hget, Hobj.
      unfold Patient.model_dump. now rewrite He.
    + unfold Patient.bmi in He.
      destruct (PyFloat.pow2 (Patient.height patient_obj)) as [d|e'] eqn:Hd; simpl in He.
      * unfold PyFloat.truediv in He.
        destruct (is_zero d); simpl in He; [injection He as <-; auto | discriminate].
      * injection He as <-. right. now apply (pow2_errors (Patient.height patient_obj)).
  - intros v. rewrite !put_edit_eq. now rewrite validate_update_ignores_id.
Qed.

Lemma update_frame_witness :
  @put_edit exact_types correctly_rounded "P001" move_and_gain two_patients =
    (Ok ananya_moved, [("P001", ananya_moved_stored); ("P002", ravi_stored)]) /\
  Patient.name ananya_moved = Patient.name ananya /\
  Patient.city ananya_moved = "Pune" /\
  Patient.id ananya_moved = "P001".
Proof.
  destruct (@update_frame exact_types correctly_rounded two_patients "P001" ananya_stored
              move_and_gain ananya ananya_moved move_and_gain_model
              eq_refl eq_refl eq_refl eq_refl)
    as ((Hname & _) & (Hid & _) & Hput & _).
  destruct (Hput 29.39%float eq_refl) as (v & Hv & Hedit & _).
  split; [|split; [exact Hname | split; [reflexivity | exact Hid]]].
  rewrite Hedit. injection Hv as <-. reflexivity.
Defined.

(** ** Sorting (C2) *)

Section SortFacts.
Context {A : Type} (key : A -> value).

Let ok (a : A) : Prop := ordered_key (key a).
Let le (a b : A) : Prop := key_le (key a) (key b).

Lemma py_lt_ordered (a b : A) :
  ok a -> ok b ->
  exists x y,
    Sorting.number (key a) = Some x /\ Sorting.number (key b) = Some y /\
    x <> PyFloat.XNaN /\ y <> PyFloat.XNaN /\
    Sorting.py_lt (key a) (key b) = Ok (PyFloat.xlt x y).
Proof.
  intros (x & Hx & Hnx) (y & Hy & Hny). exists x, y.
  unfold Sorting.py_lt. rewrite Hx, Hy. auto.
Qed.

Lemma le_trans_key (a b c : A) : le a b -> le b c -> le a c.
Proof.
  intros (x & y & Hx & Hy & Hxy) (y' & z & Hy' & Hz & Hyz).
  rewrite Hy in Hy'. injection Hy' as <-.
  exists x, z. repeat split; auto. now apply (xle_trans x y z).
Qed.

Lemma insert_sorted (x : A) (l : list A) :
  ok x -> Forall ok l -> StronglySorted le l ->
  exists l', Sorting.insert key x l = Ok l' /\ l' ≡ₚ x :: l /\ StronglySorted le l'.
Proof.
  intros Hx Hl Hs. induction l as [|y l IH]; simpl.
  - exists [x]. repeat split; auto. repeat constructor.
  - apply Forall_cons in Hl. destruct Hl as [Hy Hl].
    apply StronglySorted_cons in Hs. destruct Hs as [Hyl Hs].
    destruct (py_lt_ordered x y Hx Hy) as (kx & ky & Hkx & Hky & Hnx & Hny & ->). simpl.
    destruct (PyFloat.xlt kx ky) eqn:E.
    + exists (x :: y :: l). repeat split; auto.
      assert (Hxy : le x y) by (exists kx, ky; repeat split; auto using xlt_xle).
      apply StronglySorted_cons. split.
      * constructor; [exact Hxy|].
        eapply Forall_impl; [exact Hyl|]. intros z Hz. now apply (le_trans_key x y z).
      * apply StronglySorted_cons. auto.
    + destruct (IH Hl Hs) as (l' & -> & Hperm & Hs'). simpl.
      exists (y :: l'). repeat split.
      * rewrite Hperm. apply perm_swap.
      * assert (Hyx : le y x) by (exists ky, kx; repeat split; auto using xle_total).
        apply StronglySorted_cons. split; [|exact Hs'].
        rewrite Hperm. constructor; assumption.
Qed.

Lemma fold_insert_sorted (l acc : list A) :
  Forall ok acc -> Forall ok l -> StronglySorted le acc ->
  exists l',
    fold_left (fun r x => result_bind r (Sorting.insert key x)) l (Ok acc) = Ok l' /\
    l' ≡ₚ acc ++ l /\ StronglySorted le l'.
Proof.
  revert acc. induction l as [|x l IH]; intros acc Hacc Hl Hs; simpl.
  - exists acc. rewrite app_nil_r. auto.
  - apply Forall_cons in Hl. destruct Hl as [Hx Hl].
    destruct (insert_sorted x acc Hx Hacc Hs) as (acc' & -> & Hperm & Hs').
    destruct (IH acc') as (l' & Hl' & Hperm' & Hsorted); auto.
    + rewrite Hperm. constructor; assumption.
    + exists l'. repeat split; auto.
      rewrite Hperm', Hperm. simpl. apply Permutation_middle.
Qed.

Lemma sort_sorted (l : list A) :
  Forall ok l ->
  exists l', Sorting.sort key l = Ok l' /\ l' ≡ₚ l /\ StronglySorted le l'.
Proof.
  intros Hl.
  destruct (fold_insert_sorted l [] (List.Forall_nil ok) Hl (SSorted_nil le))
    as (l' & H1 & H2 & H3).
  eauto.
Qed.

Lemma StronglySorted_rev (l : list A) :
  StronglySorted le l -> StronglySorted (fun a b => le b a) (List.rev l).
Proof.
  induction l as [|x l IH]; simpl; intros Hs; [constructor|].
  apply StronglySorted_cons in Hs. destruct Hs as [Hx Hs].
  apply StronglySorted_app. split; [|split].
  - intros a b Ha Hb. apply list_elem_of_singleton in Hb. subst b.
    rewrite Forall_forall in Hx. apply Hx.
    apply list_elem_of_In, in_rev, list_elem_of_In. exact Ha.
  - auto.
  - repeat constructor.
Qed.

Lemma sorted_sorted (reverse : bool) (l : list A) :
  Forall ok l ->
  exists l',
    Sorting.sorted key reverse l = Ok l' /\ l' ≡ₚ l /\
    if reverse then StronglySorted (fun a b => le b a) l' else StronglySorted le l'.
Proof.
  intros Hl. unfold Sorting.sorted. destruct reverse.
  - destruct (sort_sorted (List.rev l)) as (l' & -> & Hperm & Hs).
    + apply Forall_forall. intros a Ha. rewrite Forall_forall in Hl. apply Hl.
      apply list_elem_of_In in Ha. apply <- in_rev in Ha.
      now apply list_elem_of_In.
    + exists (List.rev l'). simpl. repeat split.
      * rewrite <- (Permutation_rev l'), Hperm. symmetry. apply Permutation_rev.
      * now apply StronglySorted_rev.
  - now apply sort_sorted.
Qed.

End SortFacts.

Example sort_six_fields_only :
  sort_patients "bmi" "asc" six_fields_only = (Ok [ravi_six; ananya_six], six_fields_only).
Proof. reflexivity. Qed.

Example bmi_on_the_fly_six :
  @bmi_on_the_fly exact_types correctly_rounded ravi_six = Ok 35.16%float /\
  @bmi_on_the_fly exact_types correctly_rounded ananya_six = Ok 22.86%float.
Proof. split; vm_compute; reflexivity. Qed.

(** C2, as stated, fails: on a store whose records hold the six fields and
    no bmi, the sort by bmi gives every record the key 0 and returns them in
    the order of the store, here bmi 35.16 before bmi 22.86; the bmi is not
    computed from the height and the weight. *)
Lemma sort_bmi_not_computed :
  ~ (forall (lax : LaxMode) (file : store) (l : list record),
       fst (sort_patients "bmi" "asc" file) = Ok l ->
       StronglySorted
         (fun a b => exists x y,
            @bmi_on_the_fly lax correctly_rounded a = Ok x /\
            @bmi_on_the_fly lax correctly_rounded b = Ok y /\ PyFloat.le x y = true)
         l).
Proof.
  intros Hclaim.
  pose proof (Hclaim exact_types six_fields_only [ravi_six; ananya_six] eq_refl) as Hs.
  apply StronglySorted_cons in Hs. destruct Hs as [Hs _].
  apply Forall_cons in Hs. destruct Hs as [(x & y & Hx & Hy & Hxy) _].
  vm_compute in Hx. vm_compute in Hy.
  injection Hx as <-. injection Hy as <-.
  vm_compute in Hxy. discriminate.
Qed.

(** C2 (amended): for a valid query, the key of a record is the value it
    holds under the name [sort_by], for bmi the persisted bmi, and 0 for a
    record without that key; when these keys are numbers other than NaN the
    sort returns all the records of the store, in ascending order of the
    key for asc and in descending order for desc, and leaves the file
    alone. *)
Theorem sort_patients_spec (file : store) (sort_by order : string) :
  sort_by ∈ valid_fields ->
  order ∈ ["asc"; "desc"] ->
  Forall (fun x => ordered_key (sort_key sort_by x)) (Dict.values file) ->
  (forall x : record,
     sort_key sort_by x = match x !! sort_by with Some v => v | None => VInt 0 end) /\
  exists l : list record,
    sort_patients sort_by order file = (Ok l, file) /\
    l ≡ₚ Dict.values file /\
    (order = "asc" -> StronglySorted (ascending sort_by) l) /\
    (order = "desc" -> StronglySorted (descending sort_by) l).
Proof.
  intros Hfield Horder Hkeys. split.
  - intros x. unfold sort_key. destruct (x !! sort_by); reflexivity.
  - destruct (sorted_sorted (sort_key sort_by) (String.eqb order "desc")
                (Dict.values file) Hkeys) as (l & Hl & Hperm & Hs).
    exists l. unfold sort_patients.
    rewrite (bool_decide_eq_true_2 _ Hfield), (bool_decide_eq_true_2 _ Horder). simpl.
    unfold bind, load_data. rewrite Hl. simpl.
    split; [reflexivity|]. split; [exact Hperm|]. split.
    + intros ->. exact Hs.
    + intros ->. exact Hs.
Qed.

Lemma sort_patients_spec_witness :
  exists l : list record,
    sort_patients "bmi" "desc" two_patients = (Ok l, two_patients) /\
    l ≡ₚ Dict.values two_patients /\
    StronglySorted (descending "bmi") l.
Proof.
  destruct (sort_patients_spec two_patients "bmi" "desc") as (_ & l & Hl & Hperm & _ & Hdesc).
  - repeat constructor.
  - repeat constructor.
  - repeat constructor; eexists; (split; [vm_compute; reflexivity | discriminate]).
  - exists l. split; [exact Hl|]. split; [exact Hperm|]. now apply Hdesc.
Defined.

(** * Further properties of the handlers *)

(** ** More on the dict operations *)

Lemma set_absent (k : string) (v : record) (d : store) :
  Dict.get k d = None -> Dict.set k v d = (d ++ [(k, v)])%list.
Proof.
  induction d as [|[k' v'] d IH]; simpl; [reflexivity|].
  destruct (String.eqb k' k); [discriminate|].
  intros Hk. now rewrite IH.
Qed.

Lemma set_same (k : string) (v : record) (d : store) :
  Dict.get k d = Some v -> Dict.set k v d = d.
Proof.
  induction d as [|[k' v'] d IH]; simpl; [discriminate|].
  destruct (String.eqb k' k) eqn:E.
  - apply String.eqb_eq in E. intros [= ->]. now subst.
  - intros Hk. now rewrite IH.
Qed.

Lemma remove_absent (k : string) (d : store) :
  Dict.get k d = None -> Dict.remove k d = d.
Proof.
  induction d as [|[k' v'] d IH]; simpl; [reflexivity|].
  destruct (String.eqb k' k); [discriminate|].
  intros Hk. now rewrite IH.
Qed.

Lemma remove_set_absent (k : string) (v : record) (d : store) :
  Dict.get k d = None -> Dict.remove k (Dict.set k v d) = d.
Proof.
  induction d as [|[k' v'] d IH]; simpl.
  - now rewrite String.eqb_refl.
  - destruct (String.eqb k' k) eqn:E; [discriminate|].
    intros Hk. simpl. rewrite E. now rewrite IH.
Qed.

Lemma get_None_keys (k : string) (d : store) :
  Dict.get k d = None <-> ~ In k (Dict.keys d).
Proof.
  induction d as [|[k' v'] d IH]; simpl; [tauto|].
  destruct (String.eqb k' k) eqn:E.
  - apply String.eqb_eq in E. split; [discriminate | intros Hn; exfalso; auto].
  - apply String.eqb_neq in E. rewrite IH. tauto.
Qed.

Lemma keys_set_absent (k : string) (v : record) (d : store) :
  Dict.get k d = None -> Dict.keys (Dict.set k v d) = (Dict.keys d ++ [k])%list.
Proof.
  intros Hk. rewrite (set_absent k v d Hk). unfold Dict.keys.
  now rewrite List.map_app.
Qed.

Lemma keys_remove_incl (k k' : string) (d : store) :
  In k' (Dict.keys (Dict.remove k d)) -> In k' (Dict.keys d).
Proof.
  induction d as [|[k0 v0] d IH]; simpl; [tauto|].
  destruct (String.eqb k0 k); simpl; tauto.
Qed.

Lemma NoDup_keys_remove (k : string) (d : store) :
  List.NoDup (Dict.keys d) -> List.NoDup (Dict.keys (Dict.remove k d)).
Proof.
  induction d as [|[k0 v0] d IH]; simpl; [auto|].
  intros Hd. apply List.NoDup_cons_iff in Hd. destruct Hd as [Hk0 Hd].
  destruct (String.eqb k0 k); [auto|]. simpl.
  apply List.NoDup_cons; [|auto].
  intros Hin. apply Hk0. eapply keys_remove_incl; eauto.
Qed.

Lemma NoDup_keys_set (k : string) (v : record) (d : store) :
  List.NoDup (Dict.keys d) -> List.NoDup (Dict.keys (Dict.set k v d)).
Proof.
  intros Hd. destruct (Dict.get k d) as [r|] eqn:Hk.
  - rewrite keys_set_present; [exact Hd|]. apply contains_get. rewrite Hk. eauto.
  - rewrite (keys_set_absent k v d Hk).
    apply List.NoDup_rev in Hd. rewrite <- (List.rev_involutive (Dict.keys d ++ [k])%list).
    apply List.NoDup_rev. rewrite List.rev_app_distr. simpl.
    apply List.NoDup_cons; [|exact Hd].
    rewrite <- List.in_rev. now apply get_None_keys.
Qed.

(** ** Sorting: arguments, ties, small stores *)

(** X1: a [sort_by] outside height, weight and bmi is refused with status
    400 whatever [order] is, and an [order] outside asc and desc is refused
    with status 400 once [sort_by] is accepted; in both cases the file is
    not touched. *)
Theorem sort_invalid_argument (file : store) (sort_by order : string) :
  (sort_by ∉ valid_fields ->
     sort_patients sort_by order file =
       (Err (HTTPException 400 "Invalid field. Choose from ['height', 'weight', 'bmi']"),
        file)) /\
  (sort_by ∈ valid_fields -> order ∉ ["asc"; "desc"] ->
     sort_patients sort_by order file =
       (Err (HTTPException 400 "Order must be asc or desc"), file)).
Proof.
  unfold sort_patients. split.
  - intros Hf. now rewrite (bool_decide_eq_false_2 _ Hf).
  - intros Hf Ho.
    now rewrite (bool_decide_eq_true_2 _ Hf), (bool_decide_eq_false_2 _ Ho).
Qed.

Lemma sort_invalid_argument_witness :
  sort_patients "age" "upwards" two_patients =
    (Err (HTTPException 400 "Invalid field. Choose from ['height', 'weight', 'bmi']"),
     two_patients) /\
  sort_patients "height" "upwards" two_patients =
    (Err (HTTPException 400 "Order must be asc or desc"), two_patients).
Proof.
  destruct (sort_invalid_argument two_patients "age" "upwards") as [Hfield _].
  destruct (sort_invalid_argument two_patients "height" "upwards") as [_ Horder].
  split.
  - apply Hfield. unfold valid_fields. rewrite !not_elem_of_cons. repeat split; try discriminate.
    apply not_elem_of_nil.
  - apply Horder; [repeat constructor|].
    rewrite !not_elem_of_cons. repeat split; try discriminate. apply not_elem_of_nil.
Defined.

(** X2: the three reading routes never write: whatever they return, the
    file after [view], [view_patient] and [sort_patients] is the file
    before. *)
Theorem reads_leave_file (file : store) (patient_id sort_by order : string) :
  snd (view file) = file /\
  snd (view_patient patient_id file) = file /\
  snd (sort_patients sort_by order file) = file.
Proof.
  split; [reflexivity|]. split.
  - unfold view_patient, bind, load_data. simpl.
    destruct (Dict.contains patient_id file); [|reflexivity].
    destruct (Dict.getitem patient_id file); reflexivity.
  - unfold sort_patients.
    destruct (bool_decide (sort_by ∈ valid_fields)); [|reflexivity].
    destruct (bool_decide (order ∈ ["asc"; "desc"])); [|reflexivity].
    unfold bind, load_data. simpl.
    destruct (Sorting.sorted _ _ _); reflexivity.
Qed.

(** X4: a store with at most one record is returned as it is by a valid
    sort, whatever the type of the key: nothing is compared, so no
    [TypeError] can arise. *)
Theorem sort_small_store (file : store) (sort_by order : string) :
  sort_by ∈ valid_fields ->
  order ∈ ["asc"; "desc"] ->
  (length file <= 1)%nat ->
  sort_patients sort_by order file = (Ok (Dict.values file), file).
Proof.
  intros Hf Ho Hlen. unfold sort_patients.
  rewrite (bool_decide_eq_true_2 _ Hf), (bool_decide_eq_true_2 _ Ho). simpl.
  unfold bind, load_data.
  destruct file as [|[k r] [|kr file]]; simpl in Hlen; [| |lia];
    destruct (String.eqb order "desc"); reflexivity.
Qed.

Lemma sort_small_store_witness :
  sort_patients "height" "desc" tall_only = (Ok (Dict.values tall_only), tall_only).
Proof.
  apply (sort_small_store tall_only "height" "desc").
  - repeat constructor.
  - repeat constructor.
  - simpl. lia.
Defined.

Section StableSort.
Context {A : Type} (key : A -> value).

Let ok (a : A) : Prop := ordered_key (key a).
Let le (a b : A) : Prop := key_le (key a) (key b).

Lemma tie_above (k : value) (x z : A) (kx kz : PyFloat.xnum) :
  Sorting.number (key x) = Some kx -> Sorting.number (key z) = Some kz ->
  tie k (key x) = true -> PyFloat.xlt kx kz = true -> tie k (key z) = false.
Proof.
  intros Hx Hz Hk Hlt. unfold tie in *. rewrite Hx in Hk. rewrite Hz.
  destruct (Sorting.number k) as [n|]; [|reflexivity].
  apply andb_true_iff in Hk. destruct Hk as [Hnx Hxn].
  apply andb_false_iff. right.
  destruct (PyFloat.xle kz n) eqn:E; [|reflexivity].
  pose proof (xle_trans kz n kx E Hnx) as Hzx.
  apply xle_not_xlt in Hzx. congruence.
Qed.

Lemma insert_stable (k : value) (x : A) (l l' : list A) :
  ok x -> Forall ok l -> StronglySorted le l ->
  Sorting.insert key x l = Ok l' ->
  List.filter (fun a => tie k (key a)) l' =
    (List.filter (fun a => tie k (key a)) l ++
     if tie k (key x) then [x] else [])%list.
Proof.
  intros Hx Hl Hs. revert l'. induction l as [|y l IH]; simpl; intros l'.
  - intros [= <-]. simpl. destruct (tie k (key x)); reflexivity.
  - apply Forall_cons in Hl. destruct Hl as [Hy Hl].
    apply StronglySorted_cons in Hs. destruct Hs as [Hyl Hs].
    destruct (py_lt_ordered key x y Hx Hy) as (kx & ky & Hkx & Hky & Hnx & Hny & ->). simpl.
    destruct (PyFloat.xlt kx ky) eqn:E.
    + intros [= <-]. simpl.
      destruct (tie k (key x)) eqn:Ex; [|now rewrite app_nil_r].
      rewrite (tie_above k x y kx ky Hkx Hky Ex E).
      assert (Hnone : List.filter (fun a => tie k (key a)) l = []).
      { clear IH. induction l as [|z l IHl]; [reflexivity|]. simpl.
        apply Forall_cons in Hyl. destruct Hyl as [(ky' & kz & Hky' & Hkz & Hyz) Hyl].
        rewrite Hky in Hky'. injection Hky' as <-.
        rewrite (tie_above k x z kx kz Hkx Hkz Ex (xlt_xle_trans kx ky kz E Hyz)).
        apply IHl; auto.
        - now apply Forall_cons in Hl.
        - now apply StronglySorted_cons in Hs. }
      now rewrite Hnone.
    + destruct (Sorting.insert key x l) as [l''|e] eqn:Hins; [|discriminate].
      simpl. intros [= <-]. simpl. rewrite (IH Hl Hs l'' eq_refl).
      destruct (tie k (key y)); reflexivity.
Qed.

Lemma fold_insert_stable (k : value) (l acc l' : list A) :
  Forall ok acc -> Forall ok l -> StronglySorted le acc ->
  fold_left (fun r x => result_bind r (Sorting.insert key x)) l (Ok acc) = Ok l' ->
  List.filter (fun a => tie k (key a)) l' =
    List.filter (fun a => tie k (key a)) (acc ++ l).
Proof.
  revert acc. induction l as [|x l IH]; intros acc Hacc Hl Hs; simpl.
  - intros [= <-]. now rewrite app_nil_r.
  - apply Forall_cons in Hl. destruct Hl as [Hx Hl].
    destruct (insert_sorted key x acc Hx Hacc Hs) as (acc' & Hins & Hperm & Hs').
    rewrite Hins. simpl. intros Hfold.
    rewrite (IH acc') by (auto; rewrite Hperm; constructor; assumption).
    rewrite !List.filter_app, (insert_stable k x acc acc' Hx Hacc Hs Hins). simpl.
    rewrite <- app_assoc. destruct (tie k (key x)); reflexivity.
Qed.

Lemma sorted_stable (k : value) (reverse : bool) (l l' : list A) :
  Forall ok l ->
  Sorting.sorted key reverse l = Ok l' ->
  List.filter (fun a => tie k (key a)) l' = List.filter (fun a => tie k (key a)) l.
Proof.
  intros Hl. unfold Sorting.sorted, Sorting.sort. destruct reverse.
  - destruct (fold_left _ (List.rev l) (Ok [])) as [l1|e] eqn:Hfold; [|discriminate].
    simpl. intros [= <-].
    assert (Hrev : Forall ok (List.rev l)).
    { apply Forall_forall. intros a Ha. rewrite Forall_forall in Hl. apply Hl.
      apply list_elem_of_In in Ha. apply <- in_rev in Ha. now apply list_elem_of_In. }
    rewrite List.filter_rev.
    rewrite (fold_insert_stable k (List.rev l) [] l1 (List.Forall_nil ok) Hrev
               (SSorted_nil le) Hfold).
    simpl. rewrite List.filter_rev. apply List.rev_involutive.
  - intros Hfold.
    now rewrite (fold_insert_stable k l [] l' (List.Forall_nil ok) Hl (SSorted_nil le) Hfold).
Qed.

End StableSort.

(** X3: the sort is stable in both directions: when the keys are numbers
    other than NaN, the records whose key ties with any given key come out
    in the order they have in the store, for asc as for desc. *)
Theorem sort_stable (file : store) (sort_by order : string) :
  sort_by ∈ valid_fields ->
  order ∈ ["asc"; "desc"] ->
  Forall (fun x => ordered_key (sort_key sort_by x)) (Dict.values file) ->
  exists l : list record,
    sort_patients sort_by order file = (Ok l, file) /\
    forall k : value, tied sort_by k l = tied sort_by k (Dict.values file).
Proof.
  intros Hf Ho Hkeys.
  destruct (sorted_sorted (sort_key sort_by) (String.eqb order "desc")
              (Dict.values file) Hkeys) as (l & Hl & _).
  exists l. split.
  - unfold sort_patients.
    rewrite (bool_decide_eq_true_2 _ Hf), (bool_decide_eq_true_2 _ Ho). simpl.
    unfold bind, load_data. now rewrite Hl.
  - intros k. unfold tied.
    exact (sorted_stable (sort_key sort_by) k _ _ _ Hkeys Hl).
Qed.

Example sort_desc_ties :
  fst (sort_patients "bmi" "desc" three_patients) =
    Ok [ravi_stored; ananya_stored; meera_stored].
Proof. reflexivity. Qed.

Lemma sort_stable_witness :
  exists l : list record,
    sort_patients "bmi" "desc" three_patients = (Ok l, three_patients) /\
    tied "bmi" (VFloat 22.86%float) l = [ananya_stored; meera_stored].
Proof.
  destruct (sort_stable three_patients "bmi" "desc") as (l & Hl & Hties).
  - repeat constructor.
  - repeat constructor.
  - repeat constructor; eexists; (split; [vm_compute; reflexivity | discriminate]).
  - exists l. split; [exact Hl|]. rewrite Hties. reflexivity.
Defined.

(** ** Validation: extra keys, and the dump read back *)

Section ValidateMore.
Context `{LaxMode}.

Lemma validate_only_fields (kwargs kwargs' : record) :
  (forall f, f ∈ patient_fields -> kwargs' !! f = kwargs !! f) ->
  Patient.validate kwargs' = Patient.validate kwargs.
Proof.
  intros Hsame.
  unfold Patient.validate, Patient.errors, Patient.validate_id, Patient.validate_name,
    Patient.validate_city, Patient.validate_age, Patient.validate_gender,
    Patient.validate_height, Patient.validate_weight.
  rewrite (Hsame "id"), (Hsame "name"), (Hsame "city"), (Hsame "age"),
    (Hsame "gender"), (Hsame "height"), (Hsame "weight") by repeat constructor.
  reflexivity.
Qed.

Lemma validate_valid (kwargs : record) (p : Patient.t) :
  Patient.validate kwargs = Ok p -> valid_patient p.
Proof.
  intros Hp. apply validate_ok_iff in Hp.
  destruct Hp as (_ & _ & _ & Ha & Hg & Hh & Hw).
  unfold valid_patient. repeat split.
  - unfold Patient.validate_age, Field.required, Field.bind, Field.gt, Field.lt in Ha.
    destruct (kwargs !! "age") as [v|]; [|discriminate].
    destruct (Field.int v) as [e|z]; [discriminate|].
    destruct (0 <? z)%Z eqn:E0; [|discriminate].
    destruct (z <? 120)%Z; [|discriminate].
    injection Ha as <-. now apply Z.ltb_lt.
  - unfold Patient.validate_age, Field.required, Field.bind, Field.gt, Field.lt in Ha.
    destruct (kwargs !! "age") as [v|]; [|discriminate].
    destruct (Field.int v) as [e|z]; [discriminate|].
    destruct (0 <? z)%Z; [|discriminate].
    destruct (z <? 120)%Z eqn:E1; [|discriminate].
    injection Ha as <-. now apply Z.ltb_lt.
  - unfold Patient.validate_gender, Field.required, Field.literal in Hg.
    destruct (kwargs !! "gender") as [[]|]; try discriminate.
    case_bool_decide; [|discriminate]. now injection Hg as <-.
  - unfold Patient.validate_height, Field.required, Field.bind, Field.gt0 in Hh.
    destruct (kwargs !! "height") as [v|]; [|discriminate].
    destruct (Field.float v) as [e|f]; [discriminate|].
    destruct (PyFloat.lt 0 f) eqn:E; [|discriminate]. now injection Hh as <-.
  - unfold Patient.validate_weight, Field.required, Field.bind, Field.gt0 in Hw.
    destruct (kwargs !! "weight") as [v|]; [|discriminate].
    destruct (Field.float v) as [e|f]; [discriminate|].
    destruct (PyFloat.lt 0 f) eqn:E; [|discriminate]. now injection Hw as <-.
Qed.

(** A record that holds the fields of a valid patient validates to it. *)
Lemma validate_of_fields (p : Patient.t) (r : record) :
  valid_patient p ->
  r !! "id" = Some (VStr (Patient.id p)) ->
  r !! "name" = Some (VStr (Patient.name p)) ->
  r !! "city" = Some (VStr (Patient.city p)) ->
  r !! "age" = Some (VInt (Patient.age p)) ->
  r !! "gender" = Some (VStr (Patient.gender p)) ->
  r !! "height" = Some (VFloat (Patient.height p)) ->
  r !! "weight" = Some (VFloat (Patient.weight p)) ->
  Patient.validate r = Ok p.
Proof.
  intros ((Ha0 & Ha1) & Hg & Hh & Hw) Hi Hn Hc Ha Hge Hhe Hwe.
  apply validate_ok_iff.
  unfold Patient.validate_id, Patient.validate_name, Patient.validate_city,
    Patient.validate_age, Patient.validate_gender, Patient.validate_height,
    Patient.validate_weight.
  rewrite Hi, Hn, Hc, Ha, Hge, Hhe, Hwe. simpl.
  unfold Field.bind, Field.gt, Field.lt, Field.gt0.
  apply Z.ltb_lt in Ha0, Ha1. rewrite Ha0, Ha1, Hh, Hw.
  rewrite (bool_decide_eq_true_2 _ Hg). repeat split.
Qed.

Lemma validate_stored (p : Patient.t) (b : float) (v : string) :
  valid_patient p ->
  Patient.validate (<["id" := VStr (Patient.id p)]> (stored p b v)) = Ok p.
Proof.
  intros Hp. apply validate_of_fields; [exact Hp | reflexivity ..].
Qed.

End ValidateMore.

(** X11: the construction of a Patient only reads the seven fields: adding,
    changing or removing any other key of the keyword arguments, such as a
    persisted bmi or verdict, changes neither the patient nor the error. *)
Theorem validate_ignores_other_keys `{LaxMode} (kwargs : record) (k : string)
    (v : value) :
  k ∉ patient_fields ->
  Patient.validate (<[k := v]> kwargs) = Patient.validate kwargs /\
  Patient.validate (delete k kwargs) = Patient.validate kwargs.
Proof.
  intros Hk. split; apply validate_only_fields; intros f Hf.
  - apply lookup_insert_ne. intros ->. contradiction.
  - apply lookup_delete_ne. intros ->. contradiction.
Qed.

Lemma validate_ignores_other_keys_witness :
  @Patient.validate exact_types (<["bmi" := VFloat 99%float]> anonymous) =
    @Patient.validate exact_types anonymous /\
  @Patient.validate exact_types (delete "bmi" anonymous) =
    @Patient.validate exact_types anonymous.
Proof.
  apply (@validate_ignores_other_keys exact_types anonymous "bmi" (VFloat 99%float)).
  unfold patient_fields. rewrite !not_elem_of_cons.
  repeat split; try discriminate. apply not_elem_of_nil.
Defined.

(** X12: the dump of a constructed Patient reads back as the same Patient:
    when [model_dump] succeeds on a patient that came out of validation,
    validating the dump gives that patient again. *)
Theorem dump_validates_back `{LaxMode} `{Libm} (kwargs c : record) (p : Patient.t) :
  Patient.validate kwargs = Ok p ->
  Patient.model_dump [] p = Ok c ->
  Patient.validate c = Ok p.
Proof.
  intros Hp Hc. apply validate_valid in Hp.
  unfold Patient.model_dump in Hc.
  destruct (Patient.bmi p) as [b|e]; [|discriminate].
  destruct (Patient.verdict p) as [v|e]; [|discriminate].
  simpl in Hc. injection Hc as <-.
  apply validate_of_fields; [exact Hp | reflexivity ..].
Qed.

Lemma dump_validates_back_witness :
  @Patient.validate exact_types (<["id" := VStr "P001"]> ananya_stored) = Ok ananya.
Proof.
  apply (@dump_validates_back exact_types correctly_rounded (<["id" := VStr "P001"]> ananya_six)
           (<["id" := VStr "P001"]> ananya_stored) ananya); reflexivity.
Defined.

(** ** The computed fields: failures and edge values *)

Lemma bmi_errors `{Libm} (p : Patient.t) (e : error) :
  Patient.bmi p = Err e -> e = ZeroDivisionError \/ e = OverflowError.
Proof.
  unfold Patient.bmi.
  destruct (PyFloat.pow2 (Patient.height p)) as [d|e'] eqn:Hd; simpl.
  - unfold PyFloat.truediv. destruct (is_zero d); simpl; [intros [= <-]; auto | discriminate].
  - intros [= <-]. right. now apply (pow2_errors (Patient.height p)).
Qed.

Lemma verdict_fails_with_bmi `{Libm} (p : Patient.t) (e : error) :
  Patient.bmi p = Err e -> Patient.verdict p = Err e.
Proof. intros Hb. unfold Patient.verdict. now rewrite Hb. Qed.


(** X16: [verdict] fails exactly as [bmi] fails, with [ZeroDivisionError] or
    [OverflowError] and nothing else; when [bmi] has a value the verdict is
    one of the four categories, and a bmi that is NaN or plus infinity is
    Obese, every comparison with the thresholds being false. *)
Theorem verdict_edges `{Libm} (p : Patient.t) :
  (forall e, Patient.bmi p = Err e ->
     Patient.verdict p = Err e /\ (e = ZeroDivisionError \/ e = OverflowError)) /\
  (forall b, Patient.bmi p = Ok b ->
     exists s, Patient.verdict p = Ok s /\
               s ∈ ["Underweight"; "Normal"; "Overweight"; "Obese"]) /\
  (forall b, Patient.bmi p = Ok b ->
     PyFloat.exact b = PyFloat.XNaN \/ PyFloat.exact b = PyFloat.XPosInf ->
     Patient.verdict p = Ok "Obese").
Proof.
  split; [|split].
  - intros e He. split; [now apply verdict_fails_with_bmi | now apply (bmi_errors p)].
  - intros b Hb. rewrite (verdict_of_bmi p b Hb).
    destruct (PyFloat.lt b 18.5%float); [eexists; split; [reflexivity | repeat constructor]|].
    destruct (PyFloat.lt b 25%float); [eexists; split; [reflexivity | repeat constructor]|].
    destruct (PyFloat.lt b 30%float); eexists; (split; [reflexivity | repeat constructor]).
  - intros b Hb Hedge. rewrite (verdict_of_bmi p b Hb).
    unfold PyFloat.lt. destruct Hedge as [-> | ->]; reflexivity.
Qed.

Lemma verdict_edges_witness :
  Patient.verdict tiny_patient = Err ZeroDivisionError /\
  Patient.verdict boundless = Ok "Obese".
Proof.
  destruct (verdict_edges tiny_patient) as (Hfail & _).
  destruct (verdict_edges boundless) as (_ & _ & Hnan).
  split.
  - apply (Hfail ZeroDivisionError). reflexivity.
  - apply (Hnan nan); [reflexivity | left; reflexivity].
Defined.

(** ** Creating and deleting *)






Example create_heavy :
  create_patient heavy one_patient =
    (Err ValueError, (one_patient ++ [("P010", stored heavy infinity "Obese")])%list).
Proof. reflexivity. Qed.


(** X7: deleting an id the store does not have fails with NotFound and
    leaves the file as it was. *)
Theorem delete_absent (file : store) (patient_id : string) :
  Dict.get patient_id file = None ->
  delete_patient patient_id file = (Err NotFound, file).
Proof.
  intros Hid. unfold delete_patient, bind, load_data.
  apply contains_false in Hid. now rewrite Hid.
Qed.

Lemma delete_absent_witness :
  delete_patient "P404" two_patients = (Err NotFound, two_patients).
Proof. apply (delete_absent two_patients "P404"). reflexivity. Defined.

(** X8: deleting a patient right after creating it under a fresh id gives
    back the file there was before the create. *)
Theorem create_then_delete `{Libm} (file file' : store) (patient : Patient.t)
    (response : JSONResponse) :
  Dict.get (Patient.id patient) file = None ->
  create_patient patient file = (Ok response, file') ->
  exists message, delete_patient (Patient.id patient) file' = (Ok message, file).
Proof.
  intros Hid. rewrite create_patient_eq.
  rewrite (proj2 (contains_false _ _) Hid).
  destruct (Patient.model_dump ["id"] patient) as [d|e]; [|discriminate].
  destruct (Patient.model_dump [] patient); [|discriminate]. simpl.
  intros [= _ <-].
  unfold delete_patient, bind, load_data, Dict.delitem, Dict.contains.
  rewrite get_set_eq. simpl. rewrite (remove_set_absent _ _ _ Hid). eauto.
Qed.

Lemma create_then_delete_witness :
  exists message, delete_patient "P002" two_patients = (Ok message, one_patient).
Proof.
  apply (create_then_delete one_patient two_patients ravi
           {| status_code := 201; content := <["id" := VStr "P002"]> ravi_stored |});
    reflexivity.
Defined.

(** X9: once a delete has succeeded, the id is gone: a get of it and a
    second delete of it both fail with NotFound, without a write. *)
Theorem delete_then_absent (file file' : store) (patient_id : string) (message : record) :
  delete_patient patient_id file = (Ok message, file') ->
  view_patient patient_id file' = (Err NotFound, file') /\
  delete_patient patient_id file' = (Err NotFound, file').
Proof.
  unfold delete_patient at 1. unfold bind, load_data, Dict.delitem.
  destruct (Dict.contains patient_id file); [|discriminate]. simpl.
  intros [= _ <-].
  pose proof (get_remove_eq patient_id file) as Hgone. split.
  - now apply view_patient_absent.
  - unfold delete_patient, bind, load_data.
    now rewrite (proj2 (contains_false _ _) Hgone).
Qed.

Lemma delete_then_absent_witness :
  view_patient "P002" one_patient = (Err NotFound, one_patient) /\
  delete_patient "P002" one_patient = (Err NotFound, one_patient).
Proof.
  apply (delete_then_absent two_patients one_patient "P002"
           {[ "message" := VStr "patient deleted" ]}).
  reflexivity.
Defined.

(** ** Updating: absent ids, empty and null payloads *)

(** X10: an update of an id the store does not have fails with NotFound and
    writes nothing, whatever the validated payload holds; on the route the
    body is validated first, so a body that does not validate fails with a
    ValidationError even then. *)
Theorem update_absent `{LaxMode} `{Libm} (file : store) (patient_id : string) :
  Dict.get patient_id file = None ->
  (forall u, update_patient patient_id u file = (Err NotFound, file)) /\
  (forall body u, PatientUpdate.validate body = Ok u ->
     put_edit patient_id body file = (Err NotFound, file)) /\
  (forall body, (forall u, PatientUpdate.validate body <> Ok u) ->
     exists errors, put_edit patient_id body file = (Err (ValidationError errors), file)).
Proof.
  intros Hid.
  assert (Hu : forall u, update_patient patient_id u file = (Err NotFound, file)).
  { intros u. rewrite update_patient_eq. now rewrite Hid. }
  split; [exact Hu|]. split.
  - intros body u Hbody. rewrite put_edit_eq, Hbody. apply Hu.
  - intros body Hbody. rewrite put_edit_eq.
    destruct (validate_update_outcome body) as [[u Hok]|Herr].
    + exfalso. now apply (Hbody u).
    + rewrite Herr. eauto.
Qed.

Lemma update_absent_witness :
  @put_edit exact_types correctly_rounded "P404" {[ "city" := VStr "Pune" ]} two_patients =
    (Err NotFound, two_patients) /\
  exists errors,
    @put_edit exact_types correctly_rounded "P404" {[ "gender" := VStr "unknown" ]} two_patients =
      (Err (ValidationError errors), two_patients).
Proof.
  destruct (@update_absent exact_types correctly_rounded two_patients "P404" eq_refl) as (_ & Hvalid & Hinvalid).
  split.
  - eapply Hvalid. reflexivity.
  - apply Hinvalid. intros u Hu. discriminate.
Defined.

Section NullPayload.
Context `{LaxMode}.
Variables (body existing : record) (u : PatientUpdate.t) (patient_id : string).
Hypothesis Hu : PatientUpdate.validate body = Ok u.

Let merged := merge existing (PatientUpdate.model_dump_exclude_unset u) patient_id.

(** A field the body sets to None is None in the merged record. *)
Lemma merged_null (f : string) :
  f ∈ PatientUpdate.fields -> body !! f = Some VNone -> merged !! f = Some VNone.
Proof.
  intros Hf Hbody.
  destruct (validate_update_ok body u Hu) as (Hn & Hc & Ha & Hg & Hh & Hw & Hset).
  destruct (lookup_updates u) as (Ln & Lc & La & Lg & Lh & Lw).
  unfold PatientUpdate.fields in Hf. rewrite !elem_of_cons, elem_of_nil in Hf.
  unfold PatientUpdate.validate_name, PatientUpdate.validate_city,
    PatientUpdate.validate_age, PatientUpdate.validate_gender,
    PatientUpdate.validate_height, PatientUpdate.validate_weight in *.
  unfold merged.
  destruct Hf as [->|[->|[->|[->|[->|[->|[]]]]]]];
    rewrite Hbody in *; simpl in *;
    rewrite lookup_merge by discriminate.
  - rewrite Ln. injection Hn as <-. unfold payload_entry.
    now rewrite bool_decide_eq_true_2 by (apply Hset; split; [repeat constructor | rewrite Hbody; eauto]).
  - rewrite Lc. injection Hc as <-. unfold payload_entry.
    now rewrite bool_decide_eq_true_2 by (apply Hset; split; [repeat constructor | rewrite Hbody; eauto]).
  - rewrite La. injection Ha as <-. unfold payload_entry.
    now rewrite bool_decide_eq_true_2 by (apply Hset; split; [repeat constructor | rewrite Hbody; eauto]).
  - rewrite Lg. injection Hg as <-. unfold payload_entry.
    now rewrite bool_decide_eq_true_2 by (apply Hset; split; [repeat constructor | rewrite Hbody; eauto]).
  - rewrite Lh. injection Hh as <-. unfold payload_entry.
    now rewrite bool_decide_eq_true_2 by (apply Hset; split; [repeat constructor | rewrite Hbody; eauto]).
  - rewrite Lw. injection Hw as <-. unfold payload_entry.
    now rewrite bool_decide_eq_true_2 by (apply Hset; split; [repeat constructor | rewrite Hbody; eauto]).
Qed.

Lemma null_field_invalid (f : string) :
  f ∈ PatientUpdate.fields -> body !! f = Some VNone ->
  exists errors, Patient.validate merged = Err (ValidationError errors).
Proof.
  intros Hf Hbody. pose proof (merged_null f Hf Hbody) as Hm.
  destruct (validate_outcome merged) as [[p Hp]|Herr]; [|eauto].
  exfalso. apply validate_ok_iff in Hp.
  destruct Hp as (_ & Hn & Hc & Ha & Hg & Hh & Hw).
  unfold Patient.validate_name, Patient.validate_city, Patient.validate_age,
    Patient.validate_gender, Patient.validate_height, Patient.validate_weight in *.
  unfold PatientUpdate.fields in Hf. rewrite !elem_of_cons, elem_of_nil in Hf.
  destruct Hf as [->|[->|[->|[->|[->|[->|[]]]]]]]; rewrite Hm in *; discriminate.
Qed.

End NullPayload.

(** X15: a field the payload sets to null is not treated as omitted: for a
    record that exists, the update fails with a ValidationError and writes
    nothing. *)
Theorem null_field_rejected `{LaxMode} `{Libm} (file : store) (patient_id f : string)
    (existing body : record) :
  Dict.get patient_id file = Some existing ->
  f ∈ PatientUpdate.fields ->
  body !! f = Some VNone ->
  exists errors, put_edit patient_id body file = (Err (ValidationError errors), file).
Proof.
  intros Hget Hf Hbody.
  apply (put_edit_invalid file patient_id existing body Hget).
  intros u Hu. now apply (null_field_invalid body existing u patient_id Hu f).
Qed.

Lemma null_field_rejected_witness :
  exists errors,
    @put_edit exact_types correctly_rounded "P001" {[ "city" := VNone; "age" := VInt 29 ]} one_patient =
      (Err (ValidationError errors), one_patient).
Proof.
  apply (@null_field_rejected exact_types correctly_rounded one_patient "P001" "city" ananya_stored
           {[ "city" := VNone; "age" := VInt 29 ]}).
  - reflexivity.
  - repeat constructor.
  - reflexivity.
Defined.

Lemma validate_empty_body `{LaxMode} :
  PatientUpdate.validate ∅ = Ok empty_update /\
  PatientUpdate.model_dump_exclude_unset empty_update = ∅.
Proof. split; reflexivity. Qed.

(** X14: an update with an empty payload of a record that was written by
    the service changes nothing: it succeeds, returns the stored patient and
    leaves the file exactly as it was. *)
Theorem empty_update_noop `{LaxMode} `{Libm} (file : store) (patient_id : string)
    (p : Patient.t) (b : float) (v : string) :
  Dict.get patient_id file = Some (stored p b v) ->
  valid_patient p ->
  Patient.id p = patient_id ->
  Patient.bmi p = Ok b ->
  Patient.verdict p = Ok v ->
  put_edit patient_id ∅ file = (Ok p, file).
Proof.
  intros Hget Hp Hid Hb Hv.
  destruct validate_empty_body as [Hbody Hdump].
  rewrite put_edit_eq, Hbody, update_patient_eq, Hget, Hdump.
  unfold merge. rewrite (left_id_L ∅ (∪)). rewrite <- Hid at 1.
  rewrite (validate_stored p b v Hp).
  assert (Hd : Patient.model_dump ["id"] p = Ok (stored p b v))
    by (apply model_dump_without_id; eauto).
  rewrite Hd. now rewrite (set_same _ _ _ Hget).
Qed.

Lemma empty_update_noop_witness :
  @put_edit exact_types correctly_rounded "P002" ∅ two_patients = (Ok ravi, two_patients).
Proof.
  apply (@empty_update_noop exact_types correctly_rounded two_patients "P002" ravi 35.16%float "Obese").
  - reflexivity.
  - repeat split; try lia; repeat constructor.
  - reflexivity.
  - reflexivity.
  - reflexivity.
Defined.

(** ** Invariants of the store *)

Lemma get_set (k k' : string) (v : record) (d : store) :
  Dict.get k' (Dict.set k v d) = if String.eqb k k' then Some v else Dict.get k' d.
Proof.
  destruct (String.eqb k k') eqn:E.
  - apply String.eqb_eq in E. subst. apply get_set_eq.
  - apply String.eqb_neq in E. now apply get_set_ne.
Qed.

Lemma get_remove_Some (k k' : string) (d : store) (r : record) :
  Dict.get k' (Dict.remove k d) = Some r -> Dict.get k' d = Some r.
Proof.
  destruct (String.eqb k k') eqn:E.
  - apply String.eqb_eq in E. subst. now rewrite get_remove_eq.
  - apply String.eqb_neq in E. now rewrite get_remove_ne.
Qed.

Lemma well_formed_set `{Libm} (k : string) (r : record) (file : store) :
  well_formed file -> written k r -> well_formed (Dict.set k r file).
Proof.
  intros Hfile Hr key r'. rewrite get_set.
  destruct (String.eqb k key) eqn:E.
  - apply String.eqb_eq in E. subst. now intros [= <-].
  - apply Hfile.
Qed.

Lemma two_patients_well_formed : well_formed two_patients.
Proof.
  change two_patients
    with (Dict.set "P002" ravi_stored (Dict.set "P001" ananya_stored [])).
  apply well_formed_set; [apply well_formed_set|].
  - intros key r. discriminate.
  - exists ananya, 22.86%float, "Normal". repeat split; try lia; repeat constructor.
  - exists ravi, 35.16%float, "Obese". repeat split; try lia; repeat constructor.
Qed.

(** X13: the store stays well formed: the empty store is, and when every
    record of the file is the dump of a valid patient whose id is its key,
    the same holds of the file after any create of a validated patient, any
    update and any delete, whether they succeed or fail. *)
Theorem well_formed_preserved `{LaxMode} `{Libm} (file file' : store) :
  well_formed [] /\
  (well_formed file ->
   (forall patient outcome,
      valid_patient patient ->
      create_patient patient file = (outcome, file') -> well_formed file') /\
   (forall patient_id u outcome,
      update_patient patient_id u file = (outcome, file') -> well_formed file') /\
   (forall patient_id outcome,
      delete_patient patient_id file = (outcome, file') -> well_formed file')).
Proof.
  split; [intros key r; discriminate|].
  intros Hfile. split; [|split].
  - intros patient outcome Hvalid. rewrite create_patient_eq.
    destruct (Dict.contains (Patient.id patient) file); [now intros [= _ <-]|].
    destruct (Patient.model_dump ["id"] patient) as [d|e] eqn:Hd; [|now intros [= _ <-]].
    intros [= _ <-]. apply well_formed_set; [exact Hfile|].
    apply model_dump_without_id in Hd. destruct Hd as (b & v & Hb & Hv & ->).
    exists patient, b, v. auto.
  - intros patient_id u outcome. rewrite update_patient_eq.
    destruct (Dict.get patient_id file) as [existing|]; [|now intros [= _ <-]].
    destruct (Patient.validate _) as [p|e] eqn:Hp; [|now intros [= _ <-]].
    destruct (Patient.model_dump ["id"] p) as [d|e] eqn:Hd; [|now intros [= _ <-]].
    intros [= _ <-]. apply well_formed_set; [exact Hfile|].
    apply model_dump_without_id in Hd. destruct Hd as (b & v & Hb & Hv & ->).
    exists p, b, v. split; [now apply (validate_valid _ p Hp)|].
    split; [|auto].
    apply validate_ok_iff in Hp. destruct Hp as (Hi & _).
    unfold Patient.validate_id in Hi. rewrite lookup_merge_id in Hi.
    simpl in Hi. congruence.
  - intros patient_id outcome. unfold delete_patient, bind, load_data, Dict.delitem.
    destruct (Dict.contains patient_id file); simpl; [|now intros [= _ <-]].
    intros [= _ <-]. intros key r Hr. apply Hfile.
    now apply (get_remove_Some patient_id).
Qed.

Lemma well_formed_preserved_witness :
  well_formed [("P001", ananya_moved_stored); ("P002", ravi_stored)].
Proof.
  destruct (@well_formed_preserved exact_types correctly_rounded two_patients
              [("P001", ananya_moved_stored); ("P002", ravi_stored)])
    as (_ & Hstep).
  destruct (Hstep two_patients_well_formed) as (_ & Hupdate & _).
  apply (Hupdate "P001" move_and_gain_model (Ok ananya_moved)). reflexivity.
Defined.

(** X18: in a well-formed store the persisted bmi is the bmi of the
    persisted height and weight: every record holds a bmi entry, and
    computing the bmi from the record gives that very value. *)
Theorem persisted_bmi_consistent `{LaxMode} `{Libm} (file : store) (key : string) (r : record) :
  well_formed file ->
  Dict.get key file = Some r ->
  exists b : float,
    r !! "bmi" = Some (VFloat b) /\
    bmi_on_the_fly r = Ok b /\
    sort_key "bmi" r = VFloat b.
Proof.
  intros Hfile Hr. destruct (Hfile key r Hr) as (p & b & v & Hvalid & _ & Hb & _ & ->).
  exists b. split; [reflexivity|]. split; [|reflexivity].
  unfold bmi_on_the_fly.
  set (p' := {| Patient.id := ""; Patient.name := Patient.name p;
                Patient.city := Patient.city p; Patient.age := Patient.age p;
                Patient.gender := Patient.gender p; Patient.height := Patient.height p;
                Patient.weight := Patient.weight p |}).
  assert (Hp' : Patient.validate (<["id" := VStr ""]> (stored p b v)) = Ok p')
    by (apply validate_of_fields; [exact Hvalid | reflexivity ..]).
  rewrite Hp'. exact Hb.
Qed.

Lemma persisted_bmi_consistent_witness :
  exists b : float,
    ravi_stored !! "bmi" = Some (VFloat b) /\
    @bmi_on_the_fly exact_types correctly_rounded ravi_stored = Ok b /\
    sort_key "bmi" ravi_stored = VFloat b.
Proof.
  apply (@persisted_bmi_consistent exact_types correctly_rounded two_patients "P002" ravi_stored).
  - exact two_patients_well_formed.
  - reflexivity.
Defined.

(** X17: the ids of the store stay distinct: when no id occurs twice in the
    file, none does in the file after a create, an update or a delete,
    whatever their outcome. *)
Theorem keys_stay_distinct `{LaxMode} `{Libm} (file : store) :
  List.NoDup (Dict.keys file) ->
  (forall patient, List.NoDup (Dict.keys (snd (create_patient patient file)))) /\
  (forall patient_id u, List.NoDup (Dict.keys (snd (update_patient patient_id u file)))) /\
  (forall patient_id, List.NoDup (Dict.keys (snd (delete_patient patient_id file)))).
Proof.
  intros Hfile. split; [|split].
  - intros patient. rewrite create_patient_eq.
    destruct (Dict.contains (Patient.id patient) file); [exact Hfile|].
    destruct (Patient.model_dump ["id"] patient); [|exact Hfile].
    simpl. now apply NoDup_keys_set.
  - intros patient_id u. rewrite update_patient_eq.
    destruct (Dict.get patient_id file); [|exact Hfile].
    destruct (Patient.validate _) as [p|e]; [|exact Hfile].
    destruct (Patient.model_dump ["id"] p); [|exact Hfile].
    simpl. now apply NoDup_keys_set.
  - intros patient_id. unfold delete_patient, bind, load_data, Dict.delitem.
    destruct (Dict.contains patient_id file); simpl; [|exact Hfile].
    now apply NoDup_keys_remove.
Qed.

Lemma keys_stay_distinct_witness :
  List.NoDup (Dict.keys (snd (create_patient meera two_patients))) /\
  List.NoDup (Dict.keys (snd (delete_patient "P001" two_patients))).
Proof.
  destruct (@keys_stay_distinct exact_types correctly_rounded two_patients) as (Hcreate & _ & Hdelete).
  - apply List.NoDup_cons; [simpl; intros [Hin|[]]; discriminate|].
    apply List.NoDup_cons; [simpl; tauto | apply List.NoDup_nil].
  - split; [apply Hcreate | apply Hdelete].
Defined.
